(** * LiveClient charts: NumberChart and LineChart

    A shallow embedding of [src/js/charts/NumberChart.js], the file that
    defines both chart widgets, and the properties of its sliding-window
    bookkeeping.

    Modelling conventions.
    - [period], [samplingTime] and the amount
      [period / samplingTime * 1000] are binary64 numbers ([float]) with
      the arithmetic of the language; [value_of] gives the exact value of
      such a number, and a comparison with an array length is the
      comparison of the exact values.
    - A sample is a [number]: the exact value of a JavaScript number
      (a rational, an infinity or NaN).  The code only stores, copies and
      compares samples; the comparisons are those of the language, false
      whenever an operand is NaN.  The sign of a zero is not kept.
    - [data] is the JavaScript array [this.data] with its holes: a list of
      optional buffers indexed by the series identifier.
    - [page] holds what a chart reads from its surroundings: the
      [dataTypes] table of the application and the number of arguments
      the engine accepts in one call, above which [Math.max(...arr)]
      raises a RangeError.
    - The d3/DOM calls are the rendering collaborator and are taken to
      return.  Of them the model keeps the domains of the two scales, a
      count of the calls of [rescaleAxis], and for the NumberChart the
      value last given to the text element.  A [completion] records
      what a method raises. *)

From Stdlib Require Import ZArith QArith Lia Lqa Floats.
From stdpp Require Import base list strings.

Local Open Scope Z_scope.

(** ** JavaScript numbers and arrays, as far as the charts use them *)

Inductive number : Type :=
| Fin (q : Q)
| PosInfinity
| NegInfinity
| NaN.

(** The number an integer denotes. *)
Definition num (z : Z) : number := Fin (inject_Z z).

(** The exact value of a binary64 number. *)
Definition value_of (x : float) : number :=
  match Prim2SF x with
  | S754_zero _ => Fin 0
  | S754_infinity false => PosInfinity
  | S754_infinity true => NegInfinity
  | S754_nan => NaN
  | S754_finite false m e => Fin (inject_Z (Zpos m) * 2 ^ e)
  | S754_finite true m e => Fin (- inject_Z (Zpos m) * 2 ^ e)
  end.

(** [x < y] and [x <= y]. *)
Definition num_ltb (x y : number) : bool :=
  match x, y with
  | NaN, _ | _, NaN => false
  | Fin a, Fin b => negb (Qle_bool b a)
  | _, NegInfinity => false
  | NegInfinity, _ => true
  | PosInfinity, _ => false
  | _, PosInfinity => true
  end.

Definition num_leb (x y : number) : bool :=
  match x, y with
  | NaN, _ | _, NaN => false
  | Fin a, Fin b => Qle_bool a b
  | NegInfinity, _ => true
  | _, PosInfinity => true
  | _, NegInfinity => false
  | PosInfinity, _ => false
  end.

(** [len >= c], where [len] is the length of an array. *)
Definition len_geb (len : nat) (c : number) : bool :=
  match c with
  | Fin q => Qle_bool q (inject_Z (Z.of_nat len))
  | PosInfinity => false
  | NegInfinity => true
  | NaN => false
  end.

(** [c < len], where [len] is the length of an array. *)
Definition num_ltb_len (c : number) (len : nat) : bool :=
  match c with
  | Fin q => negb (Qle_bool (inject_Z (Z.of_nat len)) q)
  | PosInfinity => false
  | NegInfinity => true
  | NaN => false
  end.

(** The array length a number denotes: an integer from 0 to 2^32 - 1.
    [new Array(c)] and [arr.length = c] raise a RangeError on every other
    number. *)
Definition toArrayLength (c : number) : option nat :=
  match c with
  | Fin q =>
      let r := Qred q in
      if ((Zpos (Qden r) =? 1) && (0 <=? Qnum r) && (Qnum r <? 2 ^ 32))%Z
      then Some (Z.to_nat (Qnum r))
      else None
  | _ => None
  end.

Inductive error : Type := TypeError | RangeError.

Inductive completion : Type :=
| Normal
| Throw (e : error).

(** The outcome of an expression: its value, or what it raises. *)
Inductive result (A : Type) : Type :=
| Return (a : A)
| Raise (e : error).

Arguments Return {A} a.
Arguments Raise {A} e.

(** [Array.prototype.indexOf]: the first index of [x], or -1. *)
Fixpoint indexOf_from (l : list nat) (x : nat) (i : Z) : Z :=
  match l with
  | [] => -1
  | y :: l' => if decide (y = x) then i else indexOf_from l' x (i + 1)
  end.

Definition indexOf (l : list nat) (x : nat) : Z := indexOf_from l x 0.

(** [Array.prototype.splice(start, deleteCount)] without inserted items:
    the array as it is left. *)
Definition splice {A : Type} (l : list A) (start deleteCount : Z) : list A :=
  let len := Z.of_nat (length l) in
  let actualStart :=
    if start <? 0 then Z.max (len + start) 0 else Z.min start len in
  let actualDeleteCount := Z.min (Z.max deleteCount 0) (len - actualStart) in
  take (Z.to_nat actualStart) l
    ++ drop (Z.to_nat (actualStart + actualDeleteCount)) l.

(** [a[i]] on an array with holes; [None] is [undefined]. *)
Definition at_index {A : Type} (a : list (option A)) (i : nat) : option A :=
  mjoin (a !! i).

(** [a[i] = v]: an index past the end extends the array with holes. *)
Definition assign {A : Type} (a : list (option A)) (i : nat) (v : A)
  : list (option A) :=
  if (i <? length a)%nat then <[i := Some v]> a
  else a ++ replicate (i - length a) None ++ [Some v].

(** [delete a[i]]: leaves a hole, the length stays. *)
Definition delete_index {A : Type} (a : list (option A)) (i : nat)
  : list (option A) :=
  <[i := None]> a.

(** One step of [Math.max]: NaN once an argument is NaN, else the larger
    of the running maximum and the next argument. *)
Definition max_step (acc x : number) : number :=
  match acc, x with
  | NaN, _ | _, NaN => NaN
  | _, _ => if num_ltb acc x then x else acc
  end.

(** [Math.max(...arr)]: the spread raises a RangeError when [arr] has more
    elements than the engine accepts as arguments; the maximum starts
    from -Infinity. *)
Definition Math_max (limit : Z) (arr : list number) : result number :=
  if limit <? Z.of_nat (length arr) then Raise RangeError
  else Return (foldl max_step NegInfinity arr).

(** What a chart reads from the page it lives in. *)
Record dataTypeInfo : Type := {
  color : string;
  translation : string
}.

Record globals : Type := {
  (* the table [dataTypes]; [None] is [undefined] *)
  dataTypes : nat -> option dataTypeInfo;
  (* the largest number of arguments of one call *)
  argumentLimit : Z
}.

(** ** NumberChart *)

Module NumberChart.

Section WithValue.

(** The values a data feed pushes. *)
Context {V : Type}.

(** What the text element was last given: the string of [setup], or a
    pushed value, which the page shows as text. *)
Inductive content : Type :=
| Text (s : string)
| Value (v : V).

Record t : Type := mk {
  chartMap : list nat;
  samplingTime : float;
  n : nat;
  valueContainer : content
}.

Definition getName : string := "number-chart".

(** [setup]: thirty displayed values, the text element shows "0". *)
Definition setup (me : t) : t :=
  {| chartMap := chartMap me; samplingTime := samplingTime me;
     n := 30; valueContainer := Text "0" |}.

(** [new NumberChart(element)]: the fields, then [init] and [setup],
    which gives [n] and the text element their first values. *)
Definition create : t :=
  setup {| chartMap := []; samplingTime := 10; n := 0;
           valueContainer := Text EmptyString |}.

(** [push]: [me.valueContainer.text(value)]. *)
Definition push (lineId : nat) (value : V) (me : t) : t :=
  {| chartMap := chartMap me; samplingTime := samplingTime me;
     n := n me; valueContainer := Value value |}.

Definition addDataType (dataType : nat) (me : t) : t :=
  {| chartMap := chartMap me ++ [dataType]; samplingTime := samplingTime me;
     n := n me; valueContainer := valueContainer me |}.

Definition removeDataType (dataType : nat) (me : t) : t :=
  {| chartMap := splice (chartMap me) (indexOf (chartMap me) dataType) 1;
     samplingTime := samplingTime me;
     n := n me; valueContainer := valueContainer me |}.

Definition getSamplingTime (me : t) : float := samplingTime me.

Definition setSamplingTime (newSamplingTime : float) (me : t) : t :=
  {| chartMap := chartMap me; samplingTime := newSamplingTime;
     n := n me; valueContainer := valueContainer me |}.

Definition hasPeriod : bool := false.

End WithValue.

Arguments content : clear implicits.
Arguments t : clear implicits.

End NumberChart.

(** ** LineChart *)

Module LineChart.

Record t : Type := mk {
  (* the globals of the page *)
  page : globals;
  (* the data-types added to the chart, in the order of their addition *)
  chartMap : list nat;
  (* the displayed samples of each data-type, oldest first *)
  data : list (option (list number));
  (* the upper bound of the y-axis *)
  maxDisplayedValue : number;
  (* the time shown on the x-axis, in seconds *)
  period : float;
  (* the sampling time of the buffer, in milliseconds *)
  samplingTime : float;
  (* the domains of [xScale] and [yScale] *)
  xDomain : float * float;
  yDomain : number * number;
  (* how often [rescaleAxis] has run *)
  rescales : nat
}.

Definition with_chartMap (m : list nat) (me : t) : t :=
  mk (page me) m (data me) (maxDisplayedValue me) (period me)
     (samplingTime me) (xDomain me) (yDomain me) (rescales me).

Definition with_data (d : list (option (list number))) (me : t) : t :=
  mk (page me) (chartMap me) d (maxDisplayedValue me) (period me)
     (samplingTime me) (xDomain me) (yDomain me) (rescales me).

Definition with_maxDisplayedValue (v : number) (me : t) : t :=
  mk (page me) (chartMap me) (data me) v (period me) (samplingTime me)
     (xDomain me) (yDomain me) (rescales me).

Definition with_period (p : float) (me : t) : t :=
  mk (page me) (chartMap me) (data me) (maxDisplayedValue me) p
     (samplingTime me) (xDomain me) (yDomain me) (rescales me).

Definition with_xDomain (d : float * float) (me : t) : t :=
  mk (page me) (chartMap me) (data me) (maxDisplayedValue me) (period me)
     (samplingTime me) d (yDomain me) (rescales me).

Definition getName : string := "line-chart".

Definition getSamplingTime (me : t) : float := samplingTime me.

Definition setSamplingTime (newSamplingTime : float) (me : t) : t :=
  mk (page me) (chartMap me) (data me) (maxDisplayedValue me) (period me)
     newSamplingTime (xDomain me) (yDomain me) (rescales me).

Definition getAmountOfValues (me : t) : float :=
  (period me / getSamplingTime me * 1000)%float.

(** The x-scale of [setup] and [changePeriod]:
    [domain([-(getAmountOfValues() - 1), 0])]. *)
Definition defineXScale (me : t) : t :=
  with_xDomain ((- (getAmountOfValues me - 1))%float, 0%float) me.

(** [printLegend]: one circle and one text for each entry of [chartMap];
    [dataTypes[value]["color"]] raises a TypeError for an entry that the
    table does not have. *)
Fixpoint legendEntries (table : nat -> option dataTypeInfo)
    (entries : list nat) : completion :=
  match entries with
  | [] => Normal
  | value :: rest =>
      match table value with
      | None => Throw TypeError
      | Some _ => legendEntries table rest
      end
  end.

Definition printLegend (me : t) : completion :=
  legendEntries (dataTypes (page me)) (chartMap me).

(** [new LineChart(element)]: the fields, then [init] and [setup]; the
    legend of an empty [chartMap] has nothing to look up. *)
Definition create (thePage : globals) : t :=
  defineXScale
    {| page := thePage; chartMap := []; data := [];
       maxDisplayedValue := Fin 0;
       period := 6; samplingTime := 10;
       xDomain := (nan, nan); yDomain := (Fin 1, Fin 0); rescales := 0 |}.

(** The loop of [getMaxValueFromData] over the keys of [data], in index
    order; a hole is no key. *)
Fixpoint maxOfData (limit : Z) (maxValue : number)
    (d : list (option (list number))) : result number :=
  match d with
  | [] => Return maxValue
  | None :: rest => maxOfData limit maxValue rest
  | Some arr :: rest =>
      match Math_max limit arr with
      | Raise e => Raise e
      | Return max =>
          maxOfData limit (if num_ltb maxValue max then max else maxValue)
            rest
      end
  end.

Definition getMaxValueFromData (me : t) : result number :=
  maxOfData (argumentLimit (page me)) (Fin 0) (data me).

Definition rescaleAxis (me : t) : t :=
  mk (page me) (chartMap me) (data me) (maxDisplayedValue me) (period me)
     (samplingTime me) (xDomain me) (maxDisplayedValue me, Fin 0)
     (S (rescales me)).

(** [push]: the buffer of [dataType] is one array object, changed in
    place by [push] and [shift]; [pushed] is never empty, so its index 0
    is defined.  What [getMaxValueFromData] raises ends the call after
    the shift. *)
Definition push (dataType : nat) (value : number) (me : t)
  : t * completion :=
  match at_index (data me) dataType with
  | None => (me, Throw TypeError)
  | Some arr =>
      (* me.data[dataType].push(value) *)
      let pushed := arr ++ [value] in
      let me := with_data (<[dataType := Some pushed]> (data me)) me in
      let '(me, c) :=
        (* me.data[dataType].length >= me.getAmountOfValues() *)
        if len_geb (length pushed) (value_of (getAmountOfValues me)) then
          let droppedValue := hd (Fin 0) pushed in
          (* me.data[dataType].shift() *)
          let me :=
            with_data (<[dataType := Some (tl pushed)]> (data me)) me in
          (* droppedValue >= me.maxDisplayedValue *)
          if num_leb (maxDisplayedValue me) droppedValue then
            match getMaxValueFromData me with
            | Raise e => (me, Throw e)
            | Return maxValue =>
                (rescaleAxis (with_maxDisplayedValue maxValue me), Normal)
            end
          else (me, Normal)
        else (me, Normal) in
      match c with
      | Throw e => (me, Throw e)
      | Normal =>
          (* value > me.maxDisplayedValue *)
          if num_ltb (maxDisplayedValue me) value then
            (rescaleAxis (with_maxDisplayedValue value me), Normal)
          else (me, Normal)
      end
  end.

(** [addDataType]: [new Array(me.getAmountOfValues() - 1).fill(0)], the
    entry of [chartMap], then the stroke [dataTypes[dataType]['color']]
    of the new path and the legend. *)
Definition addDataType (dataType : nat) (me : t) : t * completion :=
  match toArrayLength (value_of (getAmountOfValues me - 1)%float) with
  | None => (me, Throw RangeError)
  | Some len =>
      let me :=
        with_data (assign (data me) dataType (replicate len (Fin 0))) me in
      let me := with_chartMap (chartMap me ++ [dataType]) me in
      match dataTypes (page me) dataType with
      | None => (me, Throw TypeError)
      | Some _ => (me, printLegend me)
      end
  end.

(** [removeDataType]: the entry of [chartMap], the buffer, then the
    displayed maximum from what is left, and the legend. *)
Definition removeDataType (dataType : nat) (me : t) : t * completion :=
  let me :=
    with_chartMap
      (splice (chartMap me) (indexOf (chartMap me) dataType) 1) me in
  let me := with_data (delete_index (data me) dataType) me in
  match getMaxValueFromData me with
  | Raise e => (me, Throw e)
  | Return maxValue =>
      let me := with_maxDisplayedValue maxValue me in
      (me, printLegend me)
  end.

(** The loop of [changePeriod] over the keys of [data], in index order;
    an assignment to [length] that raises ends it. *)
Fixpoint adjust (amount : number) (d : list (option (list number)))
  : list (option (list number)) * completion :=
  match d with
  | [] => ([], Normal)
  | None :: rest =>
      let '(rest', c) := adjust amount rest in (None :: rest', c)
  | Some arr :: rest =>
      if num_ltb_len amount (length arr) then
        match toArrayLength amount with
        | None => (Some arr :: rest, Throw RangeError)
        | Some len =>
            let '(rest', c) := adjust amount rest in
            (Some (take len arr) :: rest', c)
        end
      else
        let '(rest', c) := adjust amount rest in (Some arr :: rest', c)
  end.

(** [changePeriod]: the new period, the loop, and, when the loop
    returns, the new x-scale. *)
Definition changePeriod (newPeriod : float) (me : t) : t * completion :=
  let me := with_period newPeriod me in
  let '(d, c) := adjust (value_of (getAmountOfValues me)) (data me) in
  let me := with_data d me in
  match c with
  | Normal => (defineXScale me, Normal)
  | Throw e => (me, Throw e)
  end.

Definition hasPeriod : bool := true.

(** The calls of a data feed, and the chart after a call, whether the
    call returned or raised. *)
Inductive call : Type :=
| Push (dataType : nat) (value : number)
| AddDataType (dataType : nat)
| RemoveDataType (dataType : nat)
| ChangePeriod (newPeriod : float)
| SetSamplingTime (newSamplingTime : float).

Definition step (me : t) (c : call) : t :=
  match c with
  | Push dataType value => fst (push dataType value me)
  | AddDataType dataType => fst (addDataType dataType me)
  | RemoveDataType dataType => fst (removeDataType dataType me)
  | ChangePeriod newPeriod => fst (changePeriod newPeriod me)
  | SetSamplingTime newSamplingTime => setSamplingTime newSamplingTime me
  end.

Definition run (calls : list call) (me : t) : t := foldl step me calls.

(** Pushing the values of a list to one series, oldest first. *)
Definition pushAll (dataType : nat) (values : list number) (me : t) : t :=
  run (map (Push dataType) values) me.

End LineChart.

(** ** What the properties speak about *)

(** [x <= y] as numbers; it fails when [x] or [y] is NaN. *)
Definition num_le (x y : number) : Prop := num_leb x y = true.

(** [x] and [y] are the same number. *)
Definition num_eq (x y : number) : Prop := num_le x y /\ num_le y x.

(** The number [c] is the array length [len]. *)
Definition is_length (c : number) (len : nat) : Prop :=
  match c with
  | Fin q => (q == inject_Z (Z.of_nat len))%Q
  | _ => False
  end.

(** [x] is a sample present in some live buffer. *)
Definition sample_in (d : list (option (list number))) (x : number) : Prop :=
  exists (dataType : nat) (arr : list number),
    at_index d dataType = Some arr /\ x ∈ arr.

Definition sample_of (me : LineChart.t) (x : number) : Prop :=
  sample_in (LineChart.data me) x.

(** [x] is a sample of a live buffer that holds no NaN. *)
Definition counted_in (d : list (option (list number))) (x : number) : Prop :=
  exists (dataType : nat) (arr : list number),
    at_index d dataType = Some arr /\ (NaN ∉ arr) /\ x ∈ arr.

Definition counted_of (me : LineChart.t) (x : number) : Prop :=
  counted_in (LineChart.data me) x.

(** [m] is the maximum of the samples of the chart. *)
Definition is_max_sample (me : LineChart.t) (m : number) : Prop :=
  sample_of me m /\ forall x, sample_of me x -> num_le x m.

(** [m] is the greatest of 0 and the samples of the buffers of the chart
    that hold no NaN. *)
Definition is_max_sample_or_zero (me : LineChart.t) (m : number) : Prop :=
  num_le (Fin 0) m
  /\ (forall x, counted_of me x -> num_le x m)
  /\ (m = Fin 0 \/ counted_of me m).


(** The chart has no buffer at all. *)
Definition no_buffers (me : LineChart.t) : Prop :=
  forall dataType : nat, at_index (LineChart.data me) dataType = None.

(** No buffer of the chart has more samples than the engine accepts as
    arguments of one call. *)
Definition within_limit (me : LineChart.t) : Prop :=
  forall (dataType : nat) (arr : list number),
    at_index (LineChart.data me) dataType = Some arr ->
    Z.of_nat (length arr) <= argumentLimit (LineChart.page me).

(** Every call of the sequence leaves the chart within the limit. *)
Fixpoint stays_within_limit (calls : list LineChart.call) (me : LineChart.t)
  : Prop :=
  match calls with
  | [] => True
  | c :: rest =>
      within_limit (LineChart.step me c)
      /\ stays_within_limit rest (LineChart.step me c)
  end.

(** A call that pushes no NaN. *)
Definition pushes_no_NaN (c : LineChart.call) : Prop :=
  match c with
  | LineChart.Push _ value => value <> NaN
  | _ => True
  end.

(** A call of [push]. *)
Definition is_push (c : LineChart.call) : Prop :=
  match c with
  | LineChart.Push _ _ => True
  | _ => False
  end.

(** A call that leaves [period] and [samplingTime] alone. *)
Definition keeps_config (c : LineChart.call) : Prop :=
  match c with
  | LineChart.ChangePeriod _ | LineChart.SetSamplingTime _ => False
  | _ => True
  end.

(** A data feed that adds only identifiers that are not in [chartMap]
    and removes only identifiers that are. *)
Definition careful (me : LineChart.t) (c : LineChart.call) : Prop :=
  match c with
  | LineChart.AddDataType dataType => (dataType ∉ LineChart.chartMap me)
  | LineChart.RemoveDataType dataType => (dataType ∈ LineChart.chartMap me)
  | _ => True
  end.

Fixpoint careful_run (calls : list LineChart.call) (me : LineChart.t) : Prop :=
  match calls with
  | [] => True
  | c :: rest => careful me c /\ careful_run rest (LineChart.step me c)
  end.

(** A call other than [removeDataType]. *)
Definition keeps_series (c : LineChart.call) : Prop :=
  match c with
  | LineChart.RemoveDataType _ => False
  | _ => True
  end.

(** The calls of a data feed on a NumberChart; none of them raises. *)
Inductive number_call (V : Type) : Type :=
| NumberPush (lineId : nat) (value : V)
| NumberAddDataType (dataType : nat)
| NumberRemoveDataType (dataType : nat)
| NumberSetSamplingTime (newSamplingTime : float).

Arguments NumberPush {V} lineId value.
Arguments NumberAddDataType {V} dataType.
Arguments NumberRemoveDataType {V} dataType.
Arguments NumberSetSamplingTime {V} newSamplingTime.

Definition number_step {V : Type} (me : NumberChart.t V) (c : number_call V)
  : NumberChart.t V :=
  match c with
  | NumberPush lineId value => NumberChart.push lineId value me
  | NumberAddDataType dataType => NumberChart.addDataType dataType me
  | NumberRemoveDataType dataType => NumberChart.removeDataType dataType me
  | NumberSetSamplingTime newSamplingTime =>
      NumberChart.setSamplingTime newSamplingTime me
  end.

Definition number_run {V : Type} (calls : list (number_call V))
    (me : NumberChart.t V) : NumberChart.t V :=
  foldl number_step me calls.

Definition is_number_push {V : Type} (c : number_call V) : Prop :=
  match c with
  | NumberPush _ _ => True
  | _ => False
  end.

(** A page for the examples: the table has the data-types 0 to 3, and a
    call takes up to 65535 arguments. *)
Definition example_page : globals :=
  {| dataTypes := fun dataType =>
       if (dataType <? 4)%nat
       then Some {| color := "steelblue"; translation := "value" |}
       else None;
     argumentLimit := 65535 |}.

Local Arguments value_of : simpl never.
Local Arguments LineChart.getAmountOfValues : simpl never.
Local Arguments LineChart.getMaxValueFromData : simpl never.

(** ** The definitions on small inputs *)

Example splice_minus_one : splice [4; 5; 6]%nat (-1) 1 = [4; 5]%nat.
Proof. reflexivity. Qed.

Example splice_found : splice [4; 5; 6]%nat (indexOf [4; 5; 6]%nat 5%nat) 1
                       = [4; 6]%nat.
Proof. reflexivity. Qed.

Example splice_minus_one_empty : splice ([] : list nat) (-1) 1 = [].
Proof. reflexivity. Qed.

Example indexOf_missing : indexOf [4; 5; 6]%nat 9%nat = -1.
Proof. reflexivity. Qed.

Example assign_past_the_end :
  assign ([] : list (option (list number))) 2 [num 7]
  = [None; None; Some [num 7]].
Proof. reflexivity. Qed.

Example Math_max_values :
  Math_max 65535 [num 3; num 9; num (-2)] = Return (num 9).
Proof. reflexivity. Qed.

Example Math_max_no_values : Math_max 65535 [] = Return NegInfinity.
Proof. reflexivity. Qed.

Example Math_max_with_NaN : Math_max 65535 [num 3; NaN; num 9] = Return NaN.
Proof. reflexivity. Qed.

Example Math_max_too_many_values :
  Math_max 2 [num 3; num 9; num (-2)] = Raise RangeError.
Proof. reflexivity. Qed.

Example create_amount :
  toArrayLength
    (value_of (LineChart.getAmountOfValues (LineChart.create example_page)))
  = Some 600%nat.
Proof. vm_compute. reflexivity. Qed.

(** The quotient [161 / 10] is rounded, and the amount for a period of
    161 is 16100.000000000002: no array length. *)
Example amount_of_period_161 :
  let me := fst (LineChart.changePeriod 161 (LineChart.create example_page)) in
  LineChart.getAmountOfValues me = 0x1.f720000000001p+13%float
  /\ toArrayLength (value_of (LineChart.getAmountOfValues me)) = None
  /\ LineChart.addDataType 0 me = (me, Throw RangeError).
Proof. vm_compute. repeat split. Qed.

Example amount_of_sampling_time_zero :
  LineChart.getAmountOfValues
    (LineChart.setSamplingTime 0 (LineChart.create example_page))
  = infinity.
Proof. reflexivity. Qed.

Example addDataType_fractional_amount :
  LineChart.addDataType 0
    (LineChart.setSamplingTime 7 (LineChart.create example_page))
  = (LineChart.setSamplingTime 7 (LineChart.create example_page),
     Throw RangeError).
Proof. vm_compute. reflexivity. Qed.

(** [addDataType] of an identifier that [dataTypes] lacks raises a
    TypeError after it has stored the buffer and the entry of
    [chartMap]. *)
Example addDataType_unknown_dataType :
  let me := LineChart.setSamplingTime 2000 (LineChart.create example_page) in
  snd (LineChart.addDataType 7 me) = Throw TypeError
  /\ at_index (LineChart.data (fst (LineChart.addDataType 7 me))) 7
     = Some [Fin 0; Fin 0]
  /\ LineChart.chartMap (fst (LineChart.addDataType 7 me)) = [7%nat].
Proof. vm_compute. repeat split. Qed.

Example push_without_buffer :
  LineChart.push 3 (num 1) (LineChart.create example_page)
  = (LineChart.create example_page, Throw TypeError).
Proof. reflexivity. Qed.

(** On an engine that takes up to 500 arguments, a push to a buffer of
    599 samples raises a RangeError after it has stored the sample and
    dropped the oldest one; the displayed maximum stays below the
    sample. *)
Example push_to_long_buffer :
  let me :=
    fst (LineChart.addDataType 0
           (LineChart.create
              {| dataTypes := dataTypes example_page;
                 argumentLimit := 500 |})) in
  length <$> at_index (LineChart.data me) 0 = Some 599%nat
  /\ snd (LineChart.push 0 (num 5) me) = Throw RangeError
  /\ last <$> at_index (LineChart.data (fst (LineChart.push 0 (num 5) me))) 0
     = Some (Some (num 5))
  /\ LineChart.maxDisplayedValue (fst (LineChart.push 0 (num 5) me)) = Fin 0.
Proof. vm_compute. repeat split. Qed.

(** A pushed NaN stays in its buffer, and the buffer no longer counts
    for the displayed maximum. *)
Example push_NaN :
  let me :=
    LineChart.run
      [LineChart.SetSamplingTime 2000; LineChart.AddDataType 0;
       LineChart.Push 0 (num 7); LineChart.Push 0 NaN;
       LineChart.Push 0 (num 1)] (LineChart.create example_page) in
  LineChart.data me = [Some [NaN; num 1]]
  /\ LineChart.maxDisplayedValue me = num 1.
Proof. vm_compute. repeat split. Qed.

(** [changePeriod] to a fractional amount below a buffer's length raises
    after the assignment of [period]; the buffer and the x-scale stay. *)
Example changePeriod_fractional_amount :
  let me :=
    LineChart.run
      [LineChart.SetSamplingTime 2000; LineChart.AddDataType 0]
      (LineChart.create example_page) in
  snd (LineChart.changePeriod 0.5 me) = Throw RangeError
  /\ LineChart.data (fst (LineChart.changePeriod 0.5 me))
     = [Some [Fin 0; Fin 0]]
  /\ LineChart.period (fst (LineChart.changePeriod 0.5 me)) = 0.5%float
  /\ LineChart.xDomain (fst (LineChart.changePeriod 0.5 me))
     = LineChart.xDomain me.
Proof. vm_compute. repeat split. Qed.

(** [changePeriod] keeps the oldest samples of a buffer it shortens. *)
Example changePeriod_truncates :
  let me :=
    LineChart.run
      [LineChart.SetSamplingTime 2000; LineChart.AddDataType 0;
       LineChart.Push 0 (num 8); LineChart.Push 0 (num 9)]
      (LineChart.create example_page) in
  LineChart.data me = [Some [num 8; num 9]]
  /\ LineChart.data (fst (LineChart.changePeriod 2 me)) = [Some [num 8]]
  /\ LineChart.maxDisplayedValue (fst (LineChart.changePeriod 2 me)) = num 9.
Proof. vm_compute. repeat split. Qed.

(** With an amount of 1 a buffer is empty between pushes: the pushed
    value is itself the evicted one, and stays the displayed maximum. *)
Example push_into_empty_buffer :
  let me :=
    LineChart.run
      [LineChart.SetSamplingTime 6000; LineChart.AddDataType 0;
       LineChart.Push 0 (num 5); LineChart.Push 0 (num 5)]
      (LineChart.create example_page) in
  LineChart.data me = [Some []] /\ LineChart.maxDisplayedValue me = num 5.
Proof. vm_compute. repeat split. Qed.

(** ** The order of the numbers *)

Lemma Qle_bool_false (a b : Q) : Qle_bool a b = false <-> (b < a)%Q.
Proof.
  split.
  - intros H. apply Qnot_le_lt. intros Hle. apply Qle_bool_iff in Hle.
    congruence.
  - intros H. destruct (Qle_bool a b) eqn:E; [|done].
    apply Qle_bool_iff in E. lra.
Qed.

Ltac num_order :=
  unfold num_eq, num_le in *;
  repeat match goal with
         | x : number |- _ => destruct x
         end;
  simpl in *; try done; try congruence;
  rewrite ?negb_true_iff, ?negb_false_iff in *;
  rewrite ?Qle_bool_iff, ?Qle_bool_false in *;
  try lra.

Lemma num_le_refl x : x <> NaN -> num_le x x.
Proof. intros H. num_order. Qed.

Lemma num_le_trans x y z : num_le x y -> num_le y z -> num_le x z.
Proof. intros H1 H2. num_order. Qed.

Lemma num_le_not_NaN x y : num_le x y -> x <> NaN /\ y <> NaN.
Proof. intros H. split; intros ->; num_order. Qed.

Lemma num_ltb_le x y : num_ltb x y = true -> num_le x y.
Proof. intros H. num_order. Qed.

Lemma num_ltb_false_le x y :
  x <> NaN -> y <> NaN -> num_ltb x y = false -> num_le y x.
Proof. intros Hx Hy H. num_order. Qed.

Lemma num_le_ltb_false x y : num_le x y -> num_ltb y x = false.
Proof. intros H. num_order. Qed.

Lemma num_ltb_NegInfinity x : num_ltb x NegInfinity = false.
Proof. by destruct x. Qed.

Lemma num_ltb_NaN x : num_ltb x NaN = false.
Proof. by destruct x. Qed.

Lemma num_le_num (a b : Z) : num_le (num a) (num b) <-> a <= b.
Proof.
  unfold num_le, num. simpl. rewrite Qle_bool_iff. symmetry.
  by rewrite Zle_Qle.
Qed.

(** ** Arrays with holes *)

Section SparseArray.
Context {A : Type}.
Implicit Types (a : list (option A)) (i j : nat) (v : A).

Lemma at_index_lt a i v : at_index a i = Some v -> (i < length a)%nat.
Proof.
  unfold at_index. destruct (a !! i) as [o|] eqn:E; [|discriminate].
  intros _. eapply lookup_lt_Some, E.
Qed.

Lemma at_index_insert_eq a i (o : option A) :
  (i < length a)%nat -> at_index (<[i := o]> a) i = o.
Proof. intros H. unfold at_index. by rewrite list_lookup_insert_eq. Qed.

Lemma at_index_insert_ne a i j (o : option A) :
  i <> j -> at_index (<[i := o]> a) j = at_index a j.
Proof. intros H. unfold at_index. by rewrite list_lookup_insert_ne. Qed.

Lemma at_index_assign_eq a i v : at_index (assign a i v) i = Some v.
Proof.
  unfold assign. destruct (i <? length a)%nat eqn:E.
  - apply Nat.ltb_lt in E. by apply at_index_insert_eq.
  - apply Nat.ltb_ge in E. unfold at_index.
    rewrite lookup_app_r by lia.
    rewrite lookup_app_r by (rewrite length_replicate; lia).
    rewrite length_replicate.
    by replace (i - length a - (i - length a))%nat with 0%nat by lia.
Qed.

Lemma at_index_assign_ne a i j v :
  i <> j -> at_index (assign a i v) j = at_index a j.
Proof.
  intros Hne. unfold assign. destruct (i <? length a)%nat eqn:E.
  - by apply at_index_insert_ne.
  - apply Nat.ltb_ge in E. unfold at_index.
    destruct (decide (j < length a)%nat) as [Hj|Hj].
    + by rewrite lookup_app_l.
    + rewrite (lookup_ge_None_2 a j) by lia.
      rewrite lookup_app_r by lia.
      destruct (decide (j - length a < i - length a)%nat) as [Hp|Hp].
      * rewrite lookup_app_l by (rewrite length_replicate; lia).
        by rewrite lookup_replicate_2.
      * rewrite lookup_app_r by (rewrite length_replicate; lia).
        rewrite length_replicate.
        rewrite lookup_ge_None_2; [done|]. simpl. lia.
Qed.

Lemma at_index_delete_eq a i : at_index (delete_index a i) i = None.
Proof.
  unfold delete_index. destruct (decide (i < length a)%nat) as [H|H].
  - by apply at_index_insert_eq.
  - rewrite list_insert_ge by lia. unfold at_index.
    by rewrite lookup_ge_None_2 by lia.
Qed.

Lemma at_index_delete_ne a i j :
  i <> j -> at_index (delete_index a i) j = at_index a j.
Proof. apply at_index_insert_ne. Qed.

Lemma lookup_Some_at_index a i v :
  a !! i = Some (Some v) <-> at_index a i = Some v.
Proof.
  unfold at_index. destruct (a !! i) as [[?|]|]; simpl; split; congruence.
Qed.

Lemma at_index_fmap {B : Type} (f : A -> B) a i :
  at_index (fmap (M:=option) f <$> a) i = f <$> at_index a i.
Proof.
  unfold at_index. rewrite list_lookup_fmap.
  by destruct (a !! i) as [[?|]|].
Qed.

End SparseArray.

(** ** Math.max and getMaxValueFromData *)

Lemma foldl_max_step_NaN arr : foldl max_step NaN arr = NaN.
Proof. induction arr as [|x arr IH]; simpl; [done|exact IH]. Qed.

Lemma foldl_max_step_has_NaN arr : forall acc,
  NaN ∈ arr -> foldl max_step acc arr = NaN.
Proof.
  induction arr as [|x arr IH]; intros acc H; simpl.
  - by apply elem_of_nil in H.
  - apply elem_of_cons in H as [<-|H].
    + replace (max_step acc NaN) with NaN by (by destruct acc).
      apply foldl_max_step_NaN.
    + by apply IH.
Qed.

Lemma NaN_in_or_not (arr : list number) : NaN ∈ arr \/ NaN ∉ arr.
Proof.
  induction arr as [|x arr [IH|IH]].
  - right. apply not_elem_of_nil.
  - left. by right.
  - destruct x; [right|right|right|left; by left];
      apply not_elem_of_cons; by split.
Qed.

Lemma max_step_spec acc x :
  acc <> NaN -> x <> NaN ->
  max_step acc x <> NaN
  /\ (num_ltb acc x = true -> max_step acc x = x)
  /\ (num_ltb acc x = false -> max_step acc x = acc).
Proof.
  intros Ha Hx. unfold max_step.
  destruct acc, x; try done; destruct (num_ltb _ _); done.
Qed.

(** Without a NaN the fold yields the start or an element, above both. *)
Lemma foldl_max_step_spec arr : forall acc,
  acc <> NaN ->
  NaN ∉ arr ->
  let r := foldl max_step acc arr in
  (r = acc \/ r ∈ arr)
  /\ (forall x, x ∈ arr -> num_le x r)
  /\ num_le acc r.
Proof.
  induction arr as [|y arr IH]; intros acc Ha Hnan; simpl.
  - split; [by left|]. split; [|by apply num_le_refl].
    intros x Hx. by apply elem_of_nil in Hx.
  - apply not_elem_of_cons in Hnan as [Hy Hnan].
    destruct (max_step_spec acc y Ha) as (Hm & Hlt & Hge); [congruence|].
    destruct (IH (max_step acc y) Hm Hnan) as (Hin & Hall & Hle).
    assert (Hstep : num_le y (max_step acc y)
                    /\ num_le acc (max_step acc y)).
    { destruct (num_ltb acc y) eqn:E.
      - rewrite (Hlt eq_refl). split.
        + apply num_le_refl. congruence.
        + by apply num_ltb_le.
      - rewrite (Hge eq_refl). split.
        + apply num_ltb_false_le; [done|congruence|done].
        + by apply num_le_refl. }
    destruct Hstep as [Hy_le Hacc_le].
    split; [|split].
    + destruct Hin as [Hin|Hin]; [|right; by right].
      rewrite Hin. destruct (num_ltb acc y) eqn:E.
      * rewrite (Hlt eq_refl). right. by left.
      * rewrite (Hge eq_refl). by left.
    + intros x Hx. apply elem_of_cons in Hx as [->|Hx]; [|by apply Hall].
      by eapply num_le_trans.
    + by eapply num_le_trans.
Qed.

Lemma Math_max_long limit arr :
  limit < Z.of_nat (length arr) -> Math_max limit arr = Raise RangeError.
Proof.
  intros H. unfold Math_max. by destruct (Z.ltb_spec limit (Z.of_nat (length arr))); [|lia].
Qed.

Lemma Math_max_short limit arr :
  Z.of_nat (length arr) <= limit ->
  Math_max limit arr = Return (foldl max_step NegInfinity arr).
Proof.
  intros H. unfold Math_max. by destruct (Z.ltb_spec limit (Z.of_nat (length arr))); [lia|].
Qed.

Lemma counted_in_lookup d x :
  counted_in d x
  <-> exists i arr, d !! i = Some (Some arr) /\ (NaN ∉ arr) /\ x ∈ arr.
Proof.
  unfold counted_in. split; intros (i & arr & H & Hx); exists i, arr.
  - split; [|done]. by apply lookup_Some_at_index.
  - split; [|done]. by apply lookup_Some_at_index.
Qed.

Lemma sample_in_lookup d x :
  sample_in d x <-> exists i arr, d !! i = Some (Some arr) /\ x ∈ arr.
Proof.
  unfold sample_in. split; intros (i & arr & H & Hx); exists i, arr.
  - split; [|done]. by apply lookup_Some_at_index.
  - split; [|done]. by apply lookup_Some_at_index.
Qed.

Lemma counted_in_cons slot d x :
  counted_in (slot :: d) x <->
  (exists arr, slot = Some arr /\ (NaN ∉ arr) /\ x ∈ arr) \/ counted_in d x.
Proof.
  split.
  - intros ([|i] & arr & Hi & Hx).
    + left. by exists arr.
    + right. by exists i, arr.
  - intros [(arr & -> & Hx)|(i & arr & Hi & Hx)].
    + by exists 0%nat, arr.
    + by exists (S i), arr.
Qed.

(** The loop raises when a buffer is too long for [Math.max]. *)
Lemma maxOfData_long limit d : forall acc,
  (exists i arr, d !! i = Some (Some arr) /\ limit < Z.of_nat (length arr)) ->
  LineChart.maxOfData limit acc d = Raise RangeError.
Proof.
  induction d as [|[arr|] d IH]; intros acc (i & a & Hi & Hlong); simpl.
  - by rewrite lookup_nil in Hi.
  - destruct (Z.le_gt_cases (Z.of_nat (length arr)) limit) as [Hs|Hl].
    + rewrite Math_max_short by done.
      destruct i as [|i]; simpl in Hi; [injection Hi as <-; lia|].
      apply IH. by exists i, a.
    + by rewrite Math_max_long by done.
  - destruct i as [|i]; simpl in Hi; [done|]. apply IH. by exists i, a.
Qed.

(** Otherwise it returns the greatest of its start and the samples of the
    buffers without a NaN. *)
Lemma maxOfData_short limit d : forall acc,
  (forall i arr, d !! i = Some (Some arr) -> Z.of_nat (length arr) <= limit) ->
  num_le acc acc ->
  exists r,
    LineChart.maxOfData limit acc d = Return r
    /\ num_le acc r
    /\ (forall x, counted_in d x -> num_le x r)
    /\ (r = acc \/ counted_in d r).
Proof.
  induction d as [|[arr|] d IH]; intros acc Hshort Hacc; simpl.
  - exists acc. split; [done|]. split; [done|]. split; [|by left].
    intros x (i & arr & Hi & _). by destruct i.
  - rewrite Math_max_short by (by apply (Hshort 0%nat)).
    set (m := foldl max_step NegInfinity arr).
    set (acc' := if num_ltb acc m then m else acc).
    assert (Hacc' : num_le acc acc' /\ num_le acc' acc').
    { unfold acc'. destruct (num_ltb acc m) eqn:E; [|done].
      split; [by apply num_ltb_le|]. apply num_le_refl.
      intros ->. by rewrite num_ltb_NaN in E. }
    destruct Hacc' as [Hle Hrefl].
    destruct (IH acc') as (r & Hr & Hacc_r & Hall & Hin).
    { intros i a Hi. by apply (Hshort (S i)). }
    { exact Hrefl. }
    exists r. split; [exact Hr|]. split; [by eapply num_le_trans|].
    destruct (NaN_in_or_not arr) as [Hnan|Hclean].
    + assert (acc' = acc) as Heq.
      { unfold acc', m. rewrite foldl_max_step_has_NaN by done.
        by rewrite num_ltb_NaN. }
      rewrite Heq in *. split.
      * intros x Hx. apply counted_in_cons in Hx as [(a & [= <-] & Hc & _)|Hx];
          [done|by apply Hall].
      * destruct Hin as [->|Hin]; [by left|right].
        apply counted_in_cons. by right.
    + destruct (foldl_max_step_spec arr NegInfinity) as (Hm_in & Hm_all & _);
        [done|done|]. fold m in Hm_in, Hm_all.
      split.
      * intros x Hx. apply counted_in_cons in Hx as [(a & [= <-] & _ & Hx)|Hx];
          [|by apply Hall].
        specialize (Hm_all x Hx).
        apply num_le_trans with acc'; [|done]. unfold acc'.
        destruct (num_ltb acc m) eqn:E; [done|].
        apply num_le_trans with m; [done|].
        apply num_ltb_false_le; [|by apply num_le_not_NaN in Hm_all as [_ ?]|done].
        by apply num_le_not_NaN in Hacc as [? _].
      * destruct Hin as [->|Hin]; [|right; apply counted_in_cons; by right].
        unfold acc'. destruct (num_ltb acc m) eqn:E; [|by left].
        right. apply counted_in_cons. left. exists arr.
        split; [done|]. split; [done|].
        destruct Hm_in as [Hm|Hm]; [|done].
        rewrite Hm in E. by rewrite num_ltb_NegInfinity in E.
  - destruct (IH acc) as (r & Hr & Hacc_r & Hall & Hin); [|done|].
    { intros i a Hi. by apply (Hshort (S i)). }
    exists r. split; [done|]. split; [done|]. split.
    + intros x Hx. apply counted_in_cons in Hx as [(a & ? & _)|Hx];
        [done|by apply Hall].
    + destruct Hin as [->|Hin]; [by left|right].
      apply counted_in_cons. by right.
Qed.

Lemma within_limit_lookup me :
  within_limit me <->
  forall i arr, LineChart.data me !! i = Some (Some arr) ->
                Z.of_nat (length arr) <= argumentLimit (LineChart.page me).
Proof.
  unfold within_limit. split; intros H i arr Hi; apply (H i);
    by apply lookup_Some_at_index.
Qed.

Lemma getMaxValueFromData_returns me :
  within_limit me ->
  exists m, LineChart.getMaxValueFromData me = Return m
            /\ is_max_sample_or_zero me m.
Proof.
  intros H. pose proof (proj1 (within_limit_lookup me) H) as H'.
  destruct (maxOfData_short _ _ (Fin 0) H') as (r & Hr & H0 & Hall & Hin);
    [done|].
  exists r. split; [exact Hr|]. done.
Qed.

Lemma long_buffer_or_not limit (d : list (option (list number))) :
  (forall i arr, d !! i = Some (Some arr) -> Z.of_nat (length arr) <= limit)
  \/ (exists i arr, d !! i = Some (Some arr) /\ limit < Z.of_nat (length arr)).
Proof.
  induction d as [|slot d [IH|(i & arr & Hi & Hlong)]].
  - left. intros i arr Hi. by rewrite lookup_nil in Hi.
  - destruct slot as [arr|].
    + destruct (Z.le_gt_cases (Z.of_nat (length arr)) limit) as [Hs|Hl].
      * left. intros [|i] a Hi; simpl in Hi; [by injection Hi as <-|].
        by eapply IH.
      * right. by exists 0%nat, arr.
    + left. intros [|i] a Hi; simpl in Hi; [done|]. by eapply IH.
  - right. by exists (S i), arr.
Qed.

Lemma getMaxValueFromData_raises me :
  ~ within_limit me ->
  LineChart.getMaxValueFromData me = Raise RangeError.
Proof.
  intros H. apply maxOfData_long.
  destruct (long_buffer_or_not (argumentLimit (LineChart.page me))
              (LineChart.data me)) as [Hall|Hex]; [|done].
  destruct H. by apply within_limit_lookup.
Qed.

Lemma within_limit_or_not me : within_limit me \/ ~ within_limit me.
Proof.
  destruct (long_buffer_or_not (argumentLimit (LineChart.page me))
              (LineChart.data me)) as [Hall|(i & arr & Hi & Hlong)].
  - left. by apply within_limit_lookup.
  - right. intros H. apply within_limit_lookup in Hi; [|exact H]. lia.
Qed.

(** ** Samples under the updates of [data] *)

Lemma sample_in_insert d s (o : option (list number)) x :
  sample_in (<[s := o]> d) x ->
  (exists arr, o = Some arr /\ x ∈ arr) \/ sample_in d x.
Proof.
  intros (i & arr & Hi & Hx). destruct (decide (s = i)) as [->|Hne].
  - destruct (decide (i < length d)%nat) as [Hlt|Hge].
    + rewrite at_index_insert_eq in Hi by done. left; by exists arr.
    + rewrite list_insert_ge in Hi by lia. right; by exists i, arr.
  - rewrite at_index_insert_ne in Hi by done. right; by exists i, arr.
Qed.

Lemma sample_in_assign d s arr x :
  sample_in (assign d s arr) x -> x ∈ arr \/ sample_in d x.
Proof.
  intros (i & arr' & Hi & Hx). destruct (decide (s = i)) as [->|Hne].
  - rewrite at_index_assign_eq in Hi. injection Hi as <-. by left.
  - rewrite at_index_assign_ne in Hi by done. right; by exists i, arr'.
Qed.

Lemma sample_in_cons slot d x :
  sample_in (slot :: d) x <->
  (exists arr, slot = Some arr /\ x ∈ arr) \/ sample_in d x.
Proof.
  split.
  - intros ([|i] & arr & Hi & Hx).
    + left. by exists arr.
    + right. by exists i, arr.
  - intros [(arr & -> & Hx)|(i & arr & Hi & Hx)].
    + by exists 0%nat, arr.
    + by exists (S i), arr.
Qed.

Lemma sample_in_adjust amount d x :
  sample_in (fst (LineChart.adjust amount d)) x -> sample_in d x.
Proof.
  induction d as [|[arr|] d IH]; simpl; [done| |].
  - destruct (num_ltb_len amount (length arr)).
    + destruct (toArrayLength amount) as [len|]; [|done].
      destruct (LineChart.adjust amount d) as [rest c]. simpl in *.
      rewrite !sample_in_cons. intros [(arr' & [= <-] & Hx)|Hx].
      * left. exists arr. split; [done|].
        apply elem_of_take in Hx as (i & Hi & _). by eapply list_elem_of_lookup_2.
      * right. by apply IH.
    + destruct (LineChart.adjust amount d) as [rest c]. simpl in *.
      rewrite !sample_in_cons. intros [H|Hx]; [by left|right; by apply IH].
  - destruct (LineChart.adjust amount d) as [rest c]. simpl in *.
    rewrite !sample_in_cons. intros [H|Hx]; [by left|right; by apply IH].
Qed.

Lemma counted_in_sample d x : counted_in d x -> sample_in d x.
Proof. intros (i & arr & Hi & _ & Hx). by exists i, arr. Qed.

Lemma sample_in_counted d x :
  (forall y, sample_in d y -> y <> NaN) -> sample_in d x -> counted_in d x.
Proof.
  intros Hclean (i & arr & Hi & Hx). exists i, arr. split; [done|].
  split; [|done]. intros Hnan. apply (Hclean NaN); [|done]. by exists i, arr.
Qed.

(** ** One call of push *)

Lemma push_unregistered me s v :
  at_index (LineChart.data me) s = None ->
  LineChart.push s v me = (me, Throw TypeError).
Proof. intros H. unfold LineChart.push. by rewrite H. Qed.

Lemma push_registered me s v arr :
  at_index (LineChart.data me) s = Some arr ->
  let me' := fst (LineChart.push s v me) in
  LineChart.data me' =
    <[s := Some (if len_geb (length (arr ++ [v]))
                            (value_of (LineChart.getAmountOfValues me))
                 then tl (arr ++ [v]) else arr ++ [v])]> (LineChart.data me)
  /\ LineChart.chartMap me' = LineChart.chartMap me
  /\ LineChart.period me' = LineChart.period me
  /\ LineChart.samplingTime me' = LineChart.samplingTime me
  /\ LineChart.page me' = LineChart.page me
  /\ LineChart.xDomain me' = LineChart.xDomain me
  /\ (snd (LineChart.push s v me) = Normal
      \/ snd (LineChart.push s v me) = Throw RangeError).
Proof.
  intros H. unfold LineChart.push. rewrite H. cbv zeta.
  change (LineChart.getAmountOfValues (LineChart.with_data _ me))
    with (LineChart.getAmountOfValues me).
  destruct (len_geb _ _);
    [destruct (num_leb _ _);
     [match goal with
      | |- context [LineChart.getMaxValueFromData ?m] =>
          pose proof (within_limit_or_not m) as [Hw|Hw];
          [destruct (getMaxValueFromData_returns m Hw) as (g & -> & _)
          |rewrite (getMaxValueFromData_raises m Hw)]
      end|]|];
    cbn [fst snd]; try destruct (num_ltb _ v); cbn;
    rewrite ?list_insert_insert_eq; auto 10.
Qed.

Lemma push_amount me s v :
  LineChart.getAmountOfValues (fst (LineChart.push s v me))
  = LineChart.getAmountOfValues me.
Proof.
  destruct (at_index (LineChart.data me) s) as [arr|] eqn:H.
  - destruct (push_registered me s v arr H) as (_ & _ & Hp & Hs & _).
    unfold LineChart.getAmountOfValues, LineChart.getSamplingTime.
    by rewrite Hp, Hs.
  - by rewrite push_unregistered.
Qed.

Lemma push_page me s v :
  LineChart.page (fst (LineChart.push s v me)) = LineChart.page me.
Proof.
  destruct (at_index (LineChart.data me) s) as [arr|] eqn:H.
  - by destruct (push_registered me s v arr H) as (_ & _ & _ & _ & -> & _).
  - by rewrite push_unregistered.
Qed.

Lemma push_buffer me s v arr :
  at_index (LineChart.data me) s = Some arr ->
  at_index (LineChart.data (fst (LineChart.push s v me))) s
  = Some (if len_geb (length (arr ++ [v]))
                     (value_of (LineChart.getAmountOfValues me))
          then tl (arr ++ [v]) else arr ++ [v]).
Proof.
  intros H. destruct (push_registered me s v arr H) as (-> & _).
  apply at_index_insert_eq. by eapply at_index_lt.
Qed.

Lemma push_other_buffer me s v j :
  s <> j ->
  at_index (LineChart.data (fst (LineChart.push s v me))) j
  = at_index (LineChart.data me) j.
Proof.
  intros Hne. destruct (at_index (LineChart.data me) s) as [arr|] eqn:H.
  - destruct (push_registered me s v arr H) as (-> & _).
    by apply at_index_insert_ne.
  - by rewrite push_unregistered.
Qed.

Lemma length_tl_snoc (arr : list number) v :
  length (tl (arr ++ [v])) = length arr.
Proof. destruct arr; simpl; [done|]. rewrite length_app. simpl. lia. Qed.

(** A length above the amount stays at or above it with one more sample. *)
Lemma len_geb_of_ltb c (arr : list number) v :
  num_ltb_len c (length arr) = true -> len_geb (length (arr ++ [v])) c = true.
Proof.
  destruct c as [q| | |]; simpl; try done.
  intros H. apply negb_true_iff in H. apply Qle_bool_iff.
  assert (Hlt : (q < inject_Z (Z.of_nat (length arr)))%Q).
  { apply Qnot_le_lt. intros Hle. apply Qle_bool_iff in Hle. congruence. }
  apply Qlt_le_weak. eapply Qlt_le_trans; [exact Hlt|].
  rewrite <- Zle_Qle. rewrite length_app. simpl. lia.
Qed.

(** ** The constructor's period and sampling time *)

Lemma default_amount me :
  LineChart.period me = 6%float -> LineChart.samplingTime me = 10%float ->
  LineChart.getAmountOfValues me = 600%float.
Proof.
  intros Hp Hs. unfold LineChart.getAmountOfValues, LineChart.getSamplingTime.
  rewrite Hp, Hs. reflexivity.
Qed.

Lemma default_amount_is_600 : is_length (value_of 600%float) 600.
Proof. vm_compute. reflexivity. Qed.

Lemma default_len_geb (arr : list number) :
  length arr = 600%nat -> len_geb (length arr) (value_of 600%float) = true.
Proof. intros ->. vm_compute. reflexivity. Qed.

Lemma default_allocation :
  toArrayLength (value_of (600 - 1)%float) = Some 599%nat.
Proof. vm_compute. reflexivity. Qed.

(** ** A buffer that is full stays a window of the pushed values *)

Lemma pushAll_window vs : forall me s (arr : list number),
  at_index (LineChart.data me) s = Some arr ->
  len_geb (S (length arr)) (value_of (LineChart.getAmountOfValues me)) = true ->
  at_index (LineChart.data (LineChart.pushAll s vs me)) s
  = Some (drop (length vs) (arr ++ vs)).
Proof.
  induction vs as [|v vs IH]; intros me s arr Harr Hfull.
  - simpl. by rewrite app_nil_r.
  - unfold LineChart.pushAll, LineChart.run. simpl.
    fold (LineChart.run (map (LineChart.Push s) vs)
            (fst (LineChart.push s v me))).
    fold (LineChart.pushAll s vs (fst (LineChart.push s v me))).
    assert (Hnext : at_index (LineChart.data (fst (LineChart.push s v me))) s
                    = Some (tl (arr ++ [v]))).
    { rewrite (push_buffer me s v arr Harr).
      replace (length (arr ++ [v])) with (S (length arr))
        by (rewrite length_app; simpl; lia).
      by rewrite Hfull. }
    rewrite (IH _ _ _ Hnext).
    + f_equal. destruct arr as [|a arr]; simpl; [done|].
      by rewrite <- app_assoc.
    + by rewrite push_amount, length_tl_snoc.
Qed.

(** ** addDataType *)

Lemma addDataType_allocated me s len :
  toArrayLength (value_of (LineChart.getAmountOfValues me - 1)%float)
  = Some len ->
  fst (LineChart.addDataType s me)
  = LineChart.with_chartMap (LineChart.chartMap me ++ [s])
      (LineChart.with_data
         (assign (LineChart.data me) s (replicate len (Fin 0))) me)
  /\ snd (LineChart.addDataType s me)
     = match dataTypes (LineChart.page me) s with
       | None => Throw TypeError
       | Some _ =>
           LineChart.legendEntries (dataTypes (LineChart.page me))
             (LineChart.chartMap me ++ [s])
       end.
Proof.
  intros H. unfold LineChart.addDataType. rewrite H.
  cbn [LineChart.page LineChart.with_chartMap LineChart.with_data].
  by destruct (dataTypes (LineChart.page me) s).
Qed.

Lemma addDataType_raises me s :
  toArrayLength (value_of (LineChart.getAmountOfValues me - 1)%float) = None ->
  LineChart.addDataType s me = (me, Throw RangeError).
Proof. intros H. unfold LineChart.addDataType. by rewrite H. Qed.

Lemma Qred_inject_Z z : Qred (inject_Z z) = inject_Z z.
Proof.
  unfold Qred, inject_Z.
  pose proof (Z.ggcd_gcd z 1) as Hg.
  pose proof (Z.ggcd_correct_divisors z 1) as Hd.
  destruct (Z.ggcd z 1) as [g [aa bb]]. simpl in *.
  rewrite Z.gcd_1_r in Hg. subst g. destruct Hd as [Ha Hb].
  rewrite Z.mul_1_l in Ha, Hb. by subst.
Qed.

Lemma toArrayLength_is_length c len :
  is_length c len -> Z.of_nat len < 2 ^ 32 -> toArrayLength c = Some len.
Proof.
  destruct c as [q| | |]; simpl; try done. intros Hq Hlen.
  apply Qred_complete in Hq. rewrite Hq, Qred_inject_Z. simpl.
  destruct (Z.leb_spec 0 (Z.of_nat len)); [|lia].
  destruct (Z.ltb_spec (Z.of_nat len) (2 ^ 32)); [|lia].
  simpl. by rewrite Nat2Z.id.
Qed.

Lemma toArrayLength_Some c len :
  toArrayLength c = Some len -> is_length c len /\ Z.of_nat len < 2 ^ 32.
Proof.
  destruct c as [q| | |]; try done.
  unfold toArrayLength, is_length. cbv zeta.
  pose proof (Qred_correct q) as Hq.
  destruct (Qred q) as [num den]. cbn [Qnum Qden].
  destruct (Z.eqb_spec (Z.pos den) 1) as [Hden|]; [|done].
  destruct (Z.leb_spec 0 num); [|done].
  destruct (Z.ltb_spec num (2 ^ 32)); [|done].
  cbn [andb]. intros [= <-]. rewrite Z2Nat.id by done. split; [|done].
  rewrite <- Hq. injection Hden as ->. reflexivity.
Qed.

(** ** removeDataType *)

Lemma removeDataType_data me s :
  LineChart.data (fst (LineChart.removeDataType s me))
  = delete_index (LineChart.data me) s.
Proof.
  unfold LineChart.removeDataType.
  by destruct (LineChart.getMaxValueFromData _).
Qed.

Lemma removeDataType_chartMap me s :
  LineChart.chartMap (fst (LineChart.removeDataType s me))
  = splice (LineChart.chartMap me) (indexOf (LineChart.chartMap me) s) 1.
Proof.
  unfold LineChart.removeDataType.
  by destruct (LineChart.getMaxValueFromData _).
Qed.

Lemma removeDataType_config me s :
  LineChart.period (fst (LineChart.removeDataType s me)) = LineChart.period me
  /\ LineChart.samplingTime (fst (LineChart.removeDataType s me))
     = LineChart.samplingTime me
  /\ LineChart.page (fst (LineChart.removeDataType s me)) = LineChart.page me.
Proof.
  unfold LineChart.removeDataType.
  by destruct (LineChart.getMaxValueFromData _).
Qed.

(** When the remaining buffers are within the limit the maximum is
    recomputed; else the call raises and the maximum stays. *)
Lemma removeDataType_max me s :
  let me' := fst (LineChart.removeDataType s me) in
  (within_limit me' ->
   is_max_sample_or_zero me' (LineChart.maxDisplayedValue me')
   /\ LineChart.getMaxValueFromData me'
      = Return (LineChart.maxDisplayedValue me')
   /\ snd (LineChart.removeDataType s me) = LineChart.printLegend me')
  /\ (~ within_limit me' ->
      LineChart.maxDisplayedValue me' = LineChart.maxDisplayedValue me
      /\ snd (LineChart.removeDataType s me) = Throw RangeError).
Proof.
  unfold LineChart.removeDataType.
  match goal with
  | |- context [LineChart.getMaxValueFromData ?m] =>
      pose proof (within_limit_or_not m) as [Hw|Hw];
      [destruct (getMaxValueFromData_returns m Hw) as (g & Hg & Hspec);
       rewrite Hg
      |rewrite (getMaxValueFromData_raises m Hw)]
  end; cbn [fst snd]; split; intros H; try done.
Qed.

(** ** changePeriod *)

Lemma changePeriod_state me p :
  let me' := fst (LineChart.changePeriod p me) in
  LineChart.data me'
  = fst (LineChart.adjust
           (value_of (p / LineChart.samplingTime me * 1000)%float)
           (LineChart.data me))
  /\ snd (LineChart.changePeriod p me)
     = snd (LineChart.adjust
              (value_of (p / LineChart.samplingTime me * 1000)%float)
              (LineChart.data me))
  /\ LineChart.period me' = p
  /\ LineChart.chartMap me' = LineChart.chartMap me
  /\ LineChart.maxDisplayedValue me' = LineChart.maxDisplayedValue me
  /\ LineChart.samplingTime me' = LineChart.samplingTime me
  /\ LineChart.page me' = LineChart.page me
  /\ LineChart.yDomain me' = LineChart.yDomain me
  /\ LineChart.rescales me' = LineChart.rescales me
  /\ (snd (LineChart.changePeriod p me) <> Normal ->
      LineChart.xDomain me' = LineChart.xDomain me).
Proof.
  unfold LineChart.changePeriod.
  change (LineChart.getAmountOfValues (LineChart.with_period p me))
    with (p / LineChart.samplingTime me * 1000)%float.
  cbn [LineChart.data LineChart.with_period].
  destruct (LineChart.adjust _ _) as [d [|e]]; cbn; repeat split; done.
Qed.

(** ** Charts that keep the constructor's period and sampling time *)

Lemma default_step me c :
  keeps_config c ->
  (LineChart.period me = 6%float /\ LineChart.samplingTime me = 10%float
   /\ forall s arr, at_index (LineChart.data me) s = Some arr ->
                    length arr = 599%nat) ->
  LineChart.period (LineChart.step me c) = 6%float
  /\ LineChart.samplingTime (LineChart.step me c) = 10%float
  /\ forall s arr, at_index (LineChart.data (LineChart.step me c)) s = Some arr ->
                   length arr = 599%nat.
Proof.
  intros Hc (Hp & Hs & Hlen).
  pose proof (default_amount me Hp Hs) as Hamount.
  destruct c as [s v|s|s|p|t]; cbn [LineChart.step keeps_config] in *;
    try done.
  - destruct (at_index (LineChart.data me) s) as [arr|] eqn:Harr.
    + destruct (push_registered me s v arr Harr) as (Hd & _ & Hp' & Hs' & _).
      rewrite Hp', Hs'. repeat split; [done..|].
      intros j arr' Hj. destruct (decide (s = j)) as [<-|Hne].
      * rewrite (push_buffer me s v arr Harr), Hamount in Hj.
        rewrite default_len_geb in Hj
          by (rewrite length_app, (Hlen s arr Harr); simpl; lia).
        replace arr' with (tl (arr ++ [v])) by congruence.
        rewrite length_tl_snoc. by eapply Hlen.
      * rewrite push_other_buffer in Hj by done. by eapply Hlen.
    + rewrite push_unregistered by done. done.
  - destruct (addDataType_allocated me s 599) as [-> _].
    { rewrite Hamount. apply default_allocation. }
    repeat split; [done..|].
    cbn [LineChart.data LineChart.with_chartMap LineChart.with_data].
    intros j arr' Hj. destruct (decide (s = j)) as [<-|Hne].
    + rewrite at_index_assign_eq in Hj.
      replace arr' with (replicate 599 (Fin 0) : list number) by congruence.
      apply length_replicate.
    + rewrite at_index_assign_ne in Hj by done. by eapply Hlen.
  - destruct (removeDataType_config me s) as (-> & -> & _).
    repeat split; [done..|].
    intros j arr' Hj. rewrite removeDataType_data in Hj.
    destruct (decide (s = j)) as [<-|Hne].
    + by rewrite at_index_delete_eq in Hj.
    + rewrite at_index_delete_ne in Hj by done. by eapply Hlen.
Qed.

Lemma default_run calls : forall me,
  Forall keeps_config calls ->
  (LineChart.period me = 6%float /\ LineChart.samplingTime me = 10%float
   /\ forall s arr, at_index (LineChart.data me) s = Some arr ->
                    length arr = 599%nat) ->
  LineChart.period (LineChart.run calls me) = 6%float
  /\ LineChart.samplingTime (LineChart.run calls me) = 10%float
  /\ forall s arr,
       at_index (LineChart.data (LineChart.run calls me)) s = Some arr ->
       length arr = 599%nat.
Proof.
  induction calls as [|c calls IH]; intros me Hcalls Hme; [done|].
  apply Forall_cons in Hcalls as [Hc Hcalls].
  apply (IH (LineChart.step me c) Hcalls). by apply default_step.
Qed.

Lemma default_create thePage :
  LineChart.period (LineChart.create thePage) = 6%float
  /\ LineChart.samplingTime (LineChart.create thePage) = 10%float
  /\ forall s arr,
       at_index (LineChart.data (LineChart.create thePage)) s = Some arr ->
       length arr = 599%nat.
Proof. repeat split. intros s arr H. by destruct s. Qed.

(** ** The displayed maximum bounds the samples *)

Lemma elem_of_tl (l : list number) x : x ∈ tl l -> x ∈ l.
Proof. destruct l; simpl; [done|]. by right. Qed.

Lemma sample_in_pushed d s arr v (o : list number) x :
  at_index d s = Some arr ->
  (forall y, y ∈ o -> y ∈ arr ++ [v]) ->
  sample_in (<[s := Some o]> d) x -> x = v \/ sample_in d x.
Proof.
  intros Harr Ho Hx. apply sample_in_insert in Hx as [(o' & [= <-] & Hx)|Hx].
  - apply Ho, elem_of_app in Hx as [Hx|Hx].
    + right. by exists s, arr.
    + left. by apply list_elem_of_singleton in Hx.
  - by right.
Qed.

(** The last statement of [push], [if (value > me.maxDisplayedValue)]. *)
Lemma last_update_bound (m v : number) (P : number -> Prop) :
  v <> NaN ->
  num_le (Fin 0) m ->
  (forall x, P x -> x = v \/ num_le x m) ->
  num_le (Fin 0) (if num_ltb m v then v else m)
  /\ forall x, P x -> num_le x (if num_ltb m v then v else m).
Proof.
  intros Hv H0 Hall.
  assert (Hm : m <> NaN) by (by apply num_le_not_NaN in H0 as [_ ?]).
  destruct (num_ltb m v) eqn:E.
  - apply num_ltb_le in E. split; [by eapply num_le_trans|].
    intros x Hx. destruct (Hall x Hx) as [->|Hle];
      [by apply num_le_refl|by eapply num_le_trans].
  - split; [done|]. intros x Hx. destruct (Hall x Hx) as [->|Hle]; [|done].
    by apply num_ltb_false_le.
Qed.

Lemma push_bound me s v :
  v <> NaN ->
  within_limit (fst (LineChart.push s v me)) ->
  (num_le (Fin 0) (LineChart.maxDisplayedValue me)
   /\ forall x, sample_of me x -> num_le x (LineChart.maxDisplayedValue me)) ->
  num_le (Fin 0) (LineChart.maxDisplayedValue (fst (LineChart.push s v me)))
  /\ forall x, sample_of (fst (LineChart.push s v me)) x ->
               num_le x (LineChart.maxDisplayedValue (fst (LineChart.push s v me))).
Proof.
  intros Hv Hw [H0 Hall]. unfold sample_of in *.
  destruct (at_index (LineChart.data me) s) as [arr|] eqn:Harr;
    [|by rewrite push_unregistered].
  assert (Hkeep : forall x,
    sample_in (<[s := Some (arr ++ [v])]> (LineChart.data me)) x ->
    x = v \/ num_le x (LineChart.maxDisplayedValue me)).
  { intros x Hx. apply (sample_in_pushed _ s arr v) in Hx as [->|Hx];
      [by left|right; by apply Hall|done|done]. }
  assert (Hdrop : forall x,
    sample_in (<[s := Some (tl (arr ++ [v]))]>
                 (<[s := Some (arr ++ [v])]> (LineChart.data me))) x ->
    x = v \/ sample_in (LineChart.data me) x).
  { intros x. rewrite list_insert_insert_eq.
    apply (sample_in_pushed _ s arr v); [done|]. apply elem_of_tl. }
  unfold LineChart.push in *. rewrite Harr in *. cbv zeta in *.
  destruct (len_geb _ _); cbn [LineChart.maxDisplayedValue LineChart.with_data
                                 LineChart.data] in *.
  - destruct (num_leb _ _).
    + match goal with
      | |- context [LineChart.getMaxValueFromData ?m] =>
          pose proof (within_limit_or_not m) as [Hm|Hm];
          [destruct (getMaxValueFromData_returns m Hm) as (g & Hg & Hspec);
           rewrite Hg in *
          |rewrite (getMaxValueFromData_raises m Hm) in *; by destruct Hm]
      end.
      destruct Hspec as (Hg0 & Hgall & _).
      unfold counted_of in Hgall. cbn [LineChart.data LineChart.with_data] in Hgall.
      assert (Hclean : forall y,
        sample_in (<[s := Some (tl (arr ++ [v]))]>
                     (<[s := Some (arr ++ [v])]> (LineChart.data me))) y ->
        y <> NaN).
      { intros y Hy. destruct (Hdrop y Hy) as [->|Hy']; [done|].
        by apply Hall, num_le_not_NaN in Hy' as [? _]. }
      pose proof (last_update_bound g v
        (sample_in (<[s := Some (tl (arr ++ [v]))]>
                      (<[s := Some (arr ++ [v])]> (LineChart.data me))))
        Hv Hg0) as Hlast.
      cbn [LineChart.maxDisplayedValue LineChart.rescaleAxis
             LineChart.with_maxDisplayedValue].
      destruct (num_ltb g v); cbn; apply Hlast; intros x Hx; right;
        by apply Hgall, sample_in_counted.
    + pose proof (last_update_bound (LineChart.maxDisplayedValue me) v
        (sample_in (<[s := Some (tl (arr ++ [v]))]>
                      (<[s := Some (arr ++ [v])]> (LineChart.data me))))
        Hv H0) as Hlast.
      destruct (num_ltb _ v); cbn; apply Hlast; intros x Hx;
        (destruct (Hdrop x Hx) as [->|Hx']; [by left|right; by apply Hall]).
  - pose proof (last_update_bound (LineChart.maxDisplayedValue me) v
      (sample_in (<[s := Some (arr ++ [v])]> (LineChart.data me)))
      Hv H0 Hkeep) as Hlast.
    destruct (num_ltb _ v); cbn; apply Hlast.
Qed.

Lemma step_bound me c :
  pushes_no_NaN c ->
  within_limit (LineChart.step me c) ->
  (num_le (Fin 0) (LineChart.maxDisplayedValue me)
   /\ forall x, sample_of me x -> num_le x (LineChart.maxDisplayedValue me)) ->
  num_le (Fin 0) (LineChart.maxDisplayedValue (LineChart.step me c))
  /\ forall x, sample_of (LineChart.step me c) x ->
               num_le x (LineChart.maxDisplayedValue (LineChart.step me c)).
Proof.
  intros Hc Hw Hme.
  destruct c as [s v|s|s|p|t]; cbn [LineChart.step pushes_no_NaN] in *.
  - by apply push_bound.
  - destruct Hme as [H0 Hall].
    destruct (toArrayLength
                (value_of (LineChart.getAmountOfValues me - 1)%float))
      as [len|] eqn:E.
    + destruct (addDataType_allocated me s len E) as [-> _].
      split; [done|]. intros x Hx. unfold sample_of in Hx.
      cbn [LineChart.data LineChart.with_chartMap LineChart.with_data
             LineChart.maxDisplayedValue] in *.
      apply sample_in_assign in Hx as [Hx|Hx]; [|by apply Hall].
      apply elem_of_replicate in Hx as [-> _]. done.
    + by rewrite (addDataType_raises me s E).
  - destruct Hme as [H0 Hall].
    destruct (removeDataType_max me s) as [Hmax _].
    destruct (Hmax Hw) as ((Hg0 & Hgall & _) & _).
    split; [done|]. intros x Hx. apply Hgall.
    assert (Hsub : forall y,
      sample_of (fst (LineChart.removeDataType s me)) y -> sample_of me y).
    { intros y (i & arr & Hi & Hy). rewrite removeDataType_data in Hi.
      destruct (decide (s = i)) as [<-|Hne].
      - by rewrite at_index_delete_eq in Hi.
      - rewrite at_index_delete_ne in Hi by done. by exists i, arr. }
    apply sample_in_counted; [|done]. intros y Hy.
    by apply Hsub, Hall, num_le_not_NaN in Hy as [? _].
  - destruct Hme as [H0 Hall].
    destruct (changePeriod_state me p) as (Hd & _ & _ & _ & -> & _).
    split; [done|]. intros x Hx. apply Hall. unfold sample_of in *.
    rewrite Hd in Hx. by eapply sample_in_adjust.
  - done.
Qed.

Lemma run_bound calls : forall me,
  Forall pushes_no_NaN calls ->
  stays_within_limit calls me ->
  (num_le (Fin 0) (LineChart.maxDisplayedValue me)
   /\ forall x, sample_of me x -> num_le x (LineChart.maxDisplayedValue me)) ->
  num_le (Fin 0) (LineChart.maxDisplayedValue (LineChart.run calls me))
  /\ forall x, sample_of (LineChart.run calls me) x ->
               num_le x (LineChart.maxDisplayedValue (LineChart.run calls me)).
Proof.
  induction calls as [|c calls IH]; intros me Hcalls Hlimit Hme; [done|].
  apply Forall_cons in Hcalls as [Hc Hcalls]. destruct Hlimit as [Hw Hlimit].
  apply (IH (LineChart.step me c)); [done|done|]. by apply step_bound.
Qed.

Lemma create_bound thePage :
  num_le (Fin 0) (LineChart.maxDisplayedValue (LineChart.create thePage))
  /\ forall x, sample_of (LineChart.create thePage) x ->
               num_le x (LineChart.maxDisplayedValue (LineChart.create thePage)).
Proof. split; [done|]. intros y (i & a & Hi & _). by destruct i. Qed.

(** ** splice after indexOf *)

Lemma indexOf_from_absent l x i : x ∉ l -> indexOf_from l x i = -1.
Proof.
  revert i. induction l as [|y l IH]; intros i Hx; simpl; [done|].
  apply not_elem_of_cons in Hx as [Hne Hx].
  destruct (decide (y = x)); [congruence|]. by apply IH.
Qed.

Lemma indexOf_absent l x : x ∉ l -> indexOf l x = -1.
Proof. apply indexOf_from_absent. Qed.

Lemma splice_last {A : Type} (l : list A) (y : A) :
  splice (l ++ [y]) (-1) 1 = l.
Proof.
  unfold splice. rewrite length_app. cbn [length Z.ltb Z.compare].
  replace (Z.max (Z.of_nat (length l + 1) + -1) 0) with (Z.of_nat (length l))
    by lia.
  replace (Z.min (Z.max 1 0) (Z.of_nat (length l + 1) - Z.of_nat (length l)))
    with 1 by lia.
  rewrite Nat2Z.id.
  replace (Z.to_nat (Z.of_nat (length l) + 1)) with (length (l ++ [y]))
    by (rewrite length_app; simpl; lia).
  by rewrite take_app_length, drop_all, app_nil_r.
Qed.

Lemma indexOf_from_first l1 l2 x i :
  x ∉ l1 -> indexOf_from (l1 ++ x :: l2) x i = i + Z.of_nat (length l1).
Proof.
  revert i. induction l1 as [|y l1 IH]; intros i Hx; simpl.
  - destruct (decide (x = x)); [lia|done].
  - apply not_elem_of_cons in Hx as [Hne Hx].
    destruct (decide (y = x)); [congruence|]. rewrite IH by done. lia.
Qed.

Lemma splice_first (l1 l2 : list nat) x :
  x ∉ l1 -> splice (l1 ++ x :: l2) (indexOf (l1 ++ x :: l2) x) 1 = l1 ++ l2.
Proof.
  intros Hx. unfold indexOf. rewrite indexOf_from_first by done.
  unfold splice. rewrite length_app. cbn [length].
  destruct (Z.ltb_spec (0 + Z.of_nat (length l1)) 0); [lia|].
  replace (Z.min (0 + Z.of_nat (length l1))
             (Z.of_nat (length l1 + S (length l2))))
    with (Z.of_nat (length l1)) by lia.
  replace (Z.min (Z.max 1 0)
             (Z.of_nat (length l1 + S (length l2)) - Z.of_nat (length l1)))
    with 1 by lia.
  rewrite Nat2Z.id, take_app_length.
  replace (Z.to_nat (Z.of_nat (length l1) + 1)) with (length l1 + 1)%nat
    by lia.
  rewrite drop_app_add. reflexivity.
Qed.

(** ** Runs of push calls *)

Lemma is_push_keeps_length me c s arr :
  is_push c ->
  at_index (LineChart.data me) s = Some arr ->
  num_ltb_len (value_of (LineChart.getAmountOfValues me)) (length arr) = true ->
  LineChart.getAmountOfValues (LineChart.step me c)
  = LineChart.getAmountOfValues me
  /\ exists arr', at_index (LineChart.data (LineChart.step me c)) s = Some arr'
                 /\ length arr' = length arr.
Proof.
  intros Hc Harr Hover. destruct c as [s' v| | | |]; try done.
  cbn [LineChart.step]. split; [apply push_amount|].
  destruct (decide (s' = s)) as [->|Hne].
  - exists (tl (arr ++ [v])). split; [|apply length_tl_snoc].
    rewrite (push_buffer me s v arr Harr). by rewrite len_geb_of_ltb.
  - exists arr. split; [|done]. by rewrite push_other_buffer.
Qed.

Lemma pushes_keep_length calls : forall me s arr,
  Forall is_push calls ->
  at_index (LineChart.data me) s = Some arr ->
  num_ltb_len (value_of (LineChart.getAmountOfValues me)) (length arr) = true ->
  LineChart.getAmountOfValues (LineChart.run calls me)
  = LineChart.getAmountOfValues me
  /\ exists arr', at_index (LineChart.data (LineChart.run calls me)) s = Some arr'
                 /\ length arr' = length arr.
Proof.
  induction calls as [|c calls IH]; intros me s arr Hcalls Harr Hover.
  - split; [done|]. by exists arr.
  - apply Forall_cons in Hcalls as [Hc Hcalls].
    destruct (is_push_keeps_length me c s arr Hc Harr Hover)
      as (Hamount & arr1 & Harr1 & Hlen1).
    destruct (IH (LineChart.step me c) s arr1 Hcalls Harr1) as (Ha & arr2 & H2 & Hl2).
    { by rewrite Hamount, Hlen1. }
    split; [by rewrite <- Hamount|].
    exists arr2. split; [done|]. by rewrite Hl2.
Qed.

Lemma is_push_keeps_config c : is_push c -> keeps_config c.
Proof. by destruct c. Qed.

(** * The properties *)

(** C1, as stated, fails on the constructed chart: after [addDataType(0)]
    and the 601 pushes of 1, 2, ..., 601 the buffer of series 0 is not a
    buffer of length 600 holding the last 600 pushed values. *)
Lemma push_601_not_length_600 :
  ~ exists arr : list number,
      at_index
        (LineChart.data
           (LineChart.pushAll 0 (num <$> seqZ 1 601)
              (fst (LineChart.addDataType 0
                      (LineChart.create example_page))))) 0
      = Some arr
      /\ length arr = 600%nat
      /\ arr = drop 1 (num <$> seqZ 1 601).
Proof.
  intros (arr & Harr & Hlen & _).
  assert (E : at_index
                (LineChart.data
                   (LineChart.pushAll 0 (num <$> seqZ 1 601)
                      (fst (LineChart.addDataType 0
                              (LineChart.create example_page))))) 0
              = Some (num <$> seqZ 3 599)) by (vm_compute; reflexivity).
  rewrite E in Harr.
  assert (Heq : arr = num <$> seqZ 3 599) by congruence.
  rewrite Heq, length_fmap, length_seqZ in Hlen. lia.
Qed.

(** C1 (amended): with period 6 and sampling time 10 (an amount of 600),
    pushing 601 values, strictly increasing or not, to a series that
    [addDataType] has just added leaves its buffer with the last 599
    pushed values, in the order of the pushes. *)
Theorem push_601_keeps_last_599
    (me : LineChart.t) (s : nat) (vs : list number) :
  LineChart.period me = 6%float ->
  LineChart.samplingTime me = 10%float ->
  length vs = 601%nat ->
  is_length (value_of (LineChart.getAmountOfValues me)) 600
  /\ at_index
       (LineChart.data
          (LineChart.pushAll s vs (fst (LineChart.addDataType s me)))) s
     = Some (drop 2 vs)
  /\ length (drop 2 vs) = 599%nat.
Proof.
  intros Hp Hs Hvs. pose proof (default_amount me Hp Hs) as Hamount.
  split; [rewrite Hamount; apply default_amount_is_600|].
  split; [|rewrite length_drop; lia].
  destruct (addDataType_allocated me s 599) as [-> _].
  { rewrite Hamount. apply default_allocation. }
  rewrite (pushAll_window vs _ s (replicate 599 (Fin 0))).
  - f_equal. rewrite drop_app_ge by (rewrite length_replicate; lia).
    rewrite length_replicate, Hvs. reflexivity.
  - apply at_index_assign_eq.
  - change (LineChart.getAmountOfValues _)
      with (LineChart.getAmountOfValues me).
    rewrite Hamount, length_replicate. vm_compute. reflexivity.
Qed.

Lemma push_601_keeps_last_599_witness :
  LineChart.period (LineChart.create example_page) = 6%float
  /\ LineChart.samplingTime (LineChart.create example_page) = 10%float
  /\ length (num <$> seqZ 1 601) = 601%nat
  /\ at_index
       (LineChart.data
          (LineChart.pushAll 0 (num <$> seqZ 1 601)
             (fst (LineChart.addDataType 0
                     (LineChart.create example_page))))) 0
     = Some (drop 2 (num <$> seqZ 1 601)).
Proof.
  split; [reflexivity|]. split; [reflexivity|].
  split; [vm_compute; reflexivity|].
  apply (push_601_keeps_last_599 (LineChart.create example_page) 0
           (num <$> seqZ 1 601));
    [reflexivity|reflexivity|vm_compute; reflexivity].
Defined.

(** C2, as stated, fails on the constructed chart: the buffer that
    [addDataType(0)] allocates does not have the length
    [getAmountOfValues()]. *)
Lemma addDataType_not_amount :
  ~ exists arr : list number,
      at_index
        (LineChart.data
           (fst (LineChart.addDataType 0 (LineChart.create example_page)))) 0
      = Some arr
      /\ (forall x, x ∈ arr -> x = Fin 0)
      /\ is_length
           (value_of
              (LineChart.getAmountOfValues (LineChart.create example_page)))
           (length arr).
Proof.
  intros (arr & Harr & _ & Hlen).
  assert (E : at_index
                (LineChart.data
                   (fst (LineChart.addDataType 0
                           (LineChart.create example_page)))) 0
              = Some (replicate 599 (Fin 0))) by (vm_compute; reflexivity).
  rewrite E in Harr.
  assert (Heq : arr = replicate 599 (Fin 0)) by congruence.
  rewrite Heq, length_replicate in Hlen. vm_compute in Hlen. discriminate.
Qed.

(** C2 (amended): when [getAmountOfValues() - 1], as the binary64
    arithmetic gives it, is an array length [len] (an integer from 0 to
    2^32 - 1), [addDataType(s)] raises no RangeError and allocates for [s]
    a buffer of [len] zeros: one less than [period / samplingTime * 1000]. *)
Theorem addDataType_allocates_amount_minus_one
    (me : LineChart.t) (s len : nat) :
  is_length (value_of (LineChart.getAmountOfValues me - 1)%float) len ->
  Z.of_nat len < 2 ^ 32 ->
  snd (LineChart.addDataType s me) <> Throw RangeError
  /\ at_index (LineChart.data (fst (LineChart.addDataType s me))) s
     = Some (replicate len (Fin 0))
  /\ length (replicate len (Fin 0)) = len.
Proof.
  intros Hlen Hbound.
  destruct (addDataType_allocated me s len) as [-> ->].
  { by apply toArrayLength_is_length. }
  split; [|split; [apply at_index_assign_eq|apply length_replicate]].
  destruct (dataTypes (LineChart.page me) s); [|done].
  induction (LineChart.chartMap me ++ [s]) as [|x l IH]; simpl; [done|].
  by destruct (dataTypes (LineChart.page me) x).
Qed.

Lemma addDataType_allocates_amount_minus_one_witness :
  is_length
    (value_of
       (LineChart.getAmountOfValues (LineChart.create example_page) - 1)%float)
    599
  /\ Z.of_nat 599 < 2 ^ 32
  /\ at_index
       (LineChart.data
          (fst (LineChart.addDataType 0 (LineChart.create example_page)))) 0
     = Some (replicate 599 (Fin 0)).
Proof.
  assert (H1 : is_length
    (value_of
       (LineChart.getAmountOfValues (LineChart.create example_page) - 1)%float)
    599) by (vm_compute; reflexivity).
  assert (H2 : Z.of_nat 599 < 2 ^ 32) by reflexivity.
  split; [exact H1|]. split; [exact H2|].
  exact (proj1 (proj2 (addDataType_allocates_amount_minus_one
                         (LineChart.create example_page) 0 599 H1 H2))).
Defined.

(** C3: start from the constructed chart, let [setup] be any calls of
    [addDataType], [push] and [removeDataType] (period 6 and sampling time
    10 stay as constructed, the amount is 600) and let [pushes] be any
    sequence of push calls.  Then every buffer present has at most 600
    samples, and one more push to its series drops the oldest sample of
    the buffer and appends the new one. *)
Theorem push_within_amount
    (thePage : globals) (setup pushes : list LineChart.call)
    (s : nat) (arr : list number) (v : number) :
  Forall keeps_config setup ->
  Forall is_push pushes ->
  at_index
    (LineChart.data
       (LineChart.run pushes (LineChart.run setup (LineChart.create thePage))))
    s = Some arr ->
  let me :=
    LineChart.run pushes (LineChart.run setup (LineChart.create thePage)) in
  is_length (value_of (LineChart.getAmountOfValues me)) 600
  /\ (length arr <= 600)%nat
  /\ exists oldest rest,
       arr = oldest :: rest
       /\ len_geb (length (arr ++ [v]))
            (value_of (LineChart.getAmountOfValues me)) = true
       /\ at_index (LineChart.data (fst (LineChart.push s v me))) s
          = Some (rest ++ [v])
       /\ (length (rest ++ [v]) <= 600)%nat.
Proof.
  intros Hsetup Hpushes Harr me.
  destruct (default_run pushes
              (LineChart.run setup (LineChart.create thePage)))
    as (Hp & Hs & Hlen).
  { eapply Forall_impl; [exact Hpushes|]. apply is_push_keeps_config. }
  { apply default_run; [done|apply default_create]. }
  fold me in Hp, Hs, Hlen, Harr.
  pose proof (default_amount me Hp Hs) as Hamount.
  pose proof (Hlen s arr Harr) as Harr_len.
  split; [rewrite Hamount; apply default_amount_is_600|].
  split; [lia|].
  destruct arr as [|oldest rest]; [done|].
  exists oldest, rest. split; [done|].
  assert (Hfull : len_geb (length ((oldest :: rest) ++ [v]))
                    (value_of (LineChart.getAmountOfValues me)) = true).
  { rewrite Hamount. apply default_len_geb.
    rewrite length_app, Harr_len. reflexivity. }
  split; [done|]. split.
  - rewrite (push_buffer me s v _ Harr). by rewrite Hfull.
  - rewrite length_app. simpl in *. lia.
Qed.

Lemma push_within_amount_witness :
  Forall keeps_config [LineChart.AddDataType 0]
  /\ Forall is_push [LineChart.Push 0 (num 7)]
  /\ at_index
       (LineChart.data
          (LineChart.run [LineChart.Push 0 (num 7)]
             (LineChart.run [LineChart.AddDataType 0]
                (LineChart.create example_page)))) 0
     = Some (replicate 598 (Fin 0) ++ [num 7])
  /\ (length (replicate 598 (Fin 0) ++ [num 7]) <= 600)%nat.
Proof.
  assert (H1 : Forall keeps_config [LineChart.AddDataType 0])
    by (repeat constructor).
  assert (H2 : Forall is_push [LineChart.Push 0 (num 7)])
    by (repeat constructor).
  assert (H3 : at_index
       (LineChart.data
          (LineChart.run [LineChart.Push 0 (num 7)]
             (LineChart.run [LineChart.AddDataType 0]
                (LineChart.create example_page)))) 0
     = Some (replicate 598 (Fin 0) ++ [num 7])) by (vm_compute; reflexivity).
  split; [exact H1|]. split; [exact H2|]. split; [exact H3|].
  exact (proj1 (proj2 (push_within_amount example_page _ _ 0 _ (num 8)
                         H1 H2 H3))).
Defined.

(** C4, as stated, fails: after [addDataType(0)] and [push(0, NaN)] on the
    constructed chart the buffer of series 0 holds the sample NaN, and
    [maxDisplayedValue], 0, is not greater than or equal to it. *)
Lemma maxDisplayedValue_not_above_NaN :
  let me :=
    LineChart.run [LineChart.AddDataType 0; LineChart.Push 0 NaN]
      (LineChart.create example_page) in
  at_index (LineChart.data me) 0 = Some (replicate 598 (Fin 0) ++ [NaN])
  /\ LineChart.maxDisplayedValue me = Fin 0
  /\ ~ forall x, sample_of me x -> num_le x (LineChart.maxDisplayedValue me).
Proof.
  assert (E : at_index
                (LineChart.data
                   (LineChart.run [LineChart.AddDataType 0; LineChart.Push 0 NaN]
                      (LineChart.create example_page))) 0
              = Some (replicate 598 (Fin 0) ++ [NaN]))
    by (vm_compute; reflexivity).
  cbv zeta. split; [exact E|]. split; [vm_compute; reflexivity|].
  intros Hall.
  assert (Hbad : num_le NaN
            (LineChart.maxDisplayedValue
               (LineChart.run [LineChart.AddDataType 0; LineChart.Push 0 NaN]
                  (LineChart.create example_page)))).
  { apply Hall. eexists 0%nat, _. split; [exact E|].
    apply elem_of_app. right. by left. }
  destruct (num_le_not_NaN _ _ Hbad) as [Hn _]. exact (Hn eq_refl).
Qed.

(** C4 (amended): in every chart reached from the constructed one by
    calls of [addDataType], [push], [removeDataType], [changePeriod] and
    [setSamplingTime], returned or raised, that push no NaN and leave no
    buffer with more samples than the engine accepts as arguments, no
    sample of a buffer exceeds [maxDisplayedValue]. *)
Theorem maxDisplayedValue_bounds_samples
    (thePage : globals) (calls : list LineChart.call)
    (s : nat) (arr : list number) (x : number) :
  Forall pushes_no_NaN calls ->
  stays_within_limit calls (LineChart.create thePage) ->
  at_index (LineChart.data (LineChart.run calls (LineChart.create thePage))) s
  = Some arr ->
  x ∈ arr ->
  num_le x
    (LineChart.maxDisplayedValue
       (LineChart.run calls (LineChart.create thePage))).
Proof.
  intros Hcalls Hlimit Harr Hx.
  destruct (run_bound calls (LineChart.create thePage) Hcalls Hlimit
              (create_bound thePage)) as [_ Hall].
  apply Hall. by exists s, arr.
Qed.

Lemma maxDisplayedValue_bounds_samples_witness :
  let calls :=
    [LineChart.SetSamplingTime 3000; LineChart.AddDataType 0;
     LineChart.Push 0 (num 5)] in
  Forall pushes_no_NaN calls
  /\ stays_within_limit calls (LineChart.create example_page)
  /\ at_index
       (LineChart.data (LineChart.run calls (LineChart.create example_page))) 0
     = Some [num 5]
  /\ num 5 ∈ [num 5]
  /\ num_le (num 5)
       (LineChart.maxDisplayedValue
          (LineChart.run calls (LineChart.create example_page))).
Proof.
  intros calls.
  assert (H1 : Forall pushes_no_NaN calls) by (repeat constructor; done).
  assert (H2 : stays_within_limit calls (LineChart.create example_page)).
  { repeat split; intros [|[|i]] a Hi; vm_compute in Hi;
      try discriminate Hi; injection Hi as <-; vm_compute; discriminate. }
  assert (H3 : at_index
       (LineChart.data (LineChart.run calls (LineChart.create example_page))) 0
     = Some [num 5]) by reflexivity.
  assert (H4 : num 5 ∈ [num 5]) by (apply list_elem_of_singleton; reflexivity).
  split; [exact H1|]. split; [exact H2|]. split; [exact H3|].
  split; [exact H4|].
  exact (maxDisplayedValue_bounds_samples example_page calls 0 [num 5] (num 5)
           H1 H2 H3 H4).
Defined.

(** C5, as stated, fails: with an amount of 3 (sampling time 2000) and the
    buffer [0; -1] under a displayed maximum of 0, [push(0, -2)] evicts the
    sample 0, which equals the displayed maximum, and leaves the displayed
    maximum at 0, although the maximum of the samples [-1; -2] left in the
    buffers is -1. *)
Lemma push_evicting_max_not_max_sample :
  let me :=
    LineChart.run
      [LineChart.SetSamplingTime 2000; LineChart.AddDataType 0;
       LineChart.Push 0 (num (-1))] (LineChart.create example_page) in
  let me' := fst (LineChart.push 0 (num (-2)) me) in
  LineChart.data me = [Some [num 0; num (-1)]]
  /\ LineChart.maxDisplayedValue me = num 0
  /\ LineChart.data me' = [Some [num (-1); num (-2)]]
  /\ LineChart.maxDisplayedValue me' = num 0
  /\ ~ is_max_sample me' (LineChart.maxDisplayedValue me').
Proof.
  cbv zeta. repeat (split; [vm_compute; reflexivity|]).
  intros [(i & arr & Hi & Hx) _].
  vm_compute in Hi. vm_compute in Hx.
  destruct i as [|[|i]]; [|done..].
  apply (inj Some) in Hi. subst arr.
  apply elem_of_cons in Hx as [Hx|Hx]; [done|].
  apply list_elem_of_singleton in Hx. done.
Qed.

(** C5 (amended): when a push that returns evicts a sample that was
    stored before the call (the buffer was not empty), that sample equals
    the displayed maximum and the buffer holds no NaN after the call, the
    call leaves [maxDisplayedValue] at what [getMaxValueFromData()]
    returns, the greatest of 0 and the samples now in the buffers without
    NaN, and calls [rescaleAxis] once, which sets the y-domain to that
    value and 0. *)
Theorem push_evicting_max_recomputes
    (me : LineChart.t) (s : nat) (oldest : number) (rest : list number)
    (v : number) :
  at_index (LineChart.data me) s = Some (oldest :: rest) ->
  len_geb (length ((oldest :: rest) ++ [v]))
    (value_of (LineChart.getAmountOfValues me)) = true ->
  num_eq oldest (LineChart.maxDisplayedValue me) ->
  (NaN ∉ rest ++ [v]) ->
  snd (LineChart.push s v me) = Normal ->
  let me' := fst (LineChart.push s v me) in
  at_index (LineChart.data me') s = Some (rest ++ [v])
  /\ is_max_sample_or_zero me' (LineChart.maxDisplayedValue me')
  /\ LineChart.getMaxValueFromData me'
     = Return (LineChart.maxDisplayedValue me')
  /\ LineChart.rescales me' = S (LineChart.rescales me)
  /\ LineChart.yDomain me' = (LineChart.maxDisplayedValue me', Fin 0).
Proof.
  intros Harr Hfull [_ Hmax] Hnan Hret me'.
  assert (Hbuf : at_index (LineChart.data me') s = Some (rest ++ [v])).
  { unfold me'. rewrite (push_buffer me s v _ Harr). by rewrite Hfull. }
  split; [exact Hbuf|]. clear Hbuf. revert Hret.
  unfold me', LineChart.push. rewrite Harr. cbv zeta.
  change (LineChart.getAmountOfValues (LineChart.with_data _ me))
    with (LineChart.getAmountOfValues me).
  rewrite Hfull. cbn [hd app LineChart.maxDisplayedValue LineChart.with_data].
  unfold num_le in Hmax. rewrite Hmax.
  match goal with
  | |- context [LineChart.getMaxValueFromData ?m] =>
      set (me2 := m) in *; destruct (within_limit_or_not me2) as [Hw|Hw]
  end.
  - destruct (getMaxValueFromData_returns me2 Hw) as (g & Hg & Hspec).
    rewrite Hg.
    assert (Hv : num_ltb g v = false).
    { apply num_le_ltb_false. destruct Hspec as (_ & Hall & _). apply Hall.
      exists s, (rest ++ [v]). split; [|split; [done|]].
      - unfold me2. cbn [LineChart.data LineChart.with_data tl].
        rewrite list_insert_insert_eq. apply at_index_insert_eq.
        by eapply at_index_lt.
      - apply elem_of_app. right. by apply list_elem_of_singleton. }
    cbn [LineChart.maxDisplayedValue LineChart.rescaleAxis
           LineChart.with_maxDisplayedValue].
    rewrite Hv. cbn [fst snd]. intros _.
    split; [exact Hspec|]. split; [exact Hg|]. by split.
  - rewrite (getMaxValueFromData_raises me2 Hw). cbn [snd]. discriminate.
Qed.

Lemma push_evicting_max_recomputes_witness :
  let me :=
    LineChart.run
      [LineChart.SetSamplingTime 2000; LineChart.AddDataType 0;
       LineChart.Push 0 (num 4); LineChart.Push 0 (num 3)]
      (LineChart.create example_page) in
  at_index (LineChart.data me) 0 = Some [num 4; num 3]
  /\ len_geb (length ([num 4; num 3] ++ [num 2]))
       (value_of (LineChart.getAmountOfValues me)) = true
  /\ num_eq (num 4) (LineChart.maxDisplayedValue me)
  /\ (NaN ∉ [num 3] ++ [num 2])
  /\ snd (LineChart.push 0 (num 2) me) = Normal
  /\ at_index (LineChart.data (fst (LineChart.push 0 (num 2) me))) 0
     = Some [num 3; num 2].
Proof.
  intros me.
  assert (H1 : at_index (LineChart.data me) 0 = Some [num 4; num 3])
    by reflexivity.
  assert (H2 : len_geb (length ([num 4; num 3] ++ [num 2]))
                 (value_of (LineChart.getAmountOfValues me)) = true)
    by reflexivity.
  assert (H3 : num_eq (num 4) (LineChart.maxDisplayedValue me))
    by (split; reflexivity).
  assert (H4 : NaN ∉ [num 3] ++ [num 2])
    by (cbn; intros H;
        repeat (apply elem_of_cons in H as [H|H]; [discriminate|]);
        by apply elem_of_nil in H).
  assert (H5 : snd (LineChart.push 0 (num 2) me) = Normal) by reflexivity.
  split; [exact H1|]. split; [exact H2|]. split; [exact H3|].
  split; [exact H4|]. split; [exact H5|].
  exact (proj1 (push_evicting_max_recomputes me 0 (num 4) [num 3] (num 2)
                  H1 H2 H3 H4 H5)).
Defined.

(** C6, as stated, fails: with an amount of 2 (sampling time 3000) the
    chart after [addDataType(0)] and [push(0, -1)] holds the single sample
    -1, and [getMaxValueFromData()] returns 0, which is not the maximum of
    the samples. *)
Lemma getMaxValueFromData_not_max_sample :
  let me :=
    LineChart.run
      [LineChart.SetSamplingTime 3000; LineChart.AddDataType 0;
       LineChart.Push 0 (num (-1))] (LineChart.create example_page) in
  LineChart.data me = [Some [num (-1)]]
  /\ LineChart.getMaxValueFromData me = Return (num 0)
  /\ ~ is_max_sample me (num 0).
Proof.
  cbv zeta. repeat (split; [vm_compute; reflexivity|]).
  intros [(i & arr & Hi & Hx) _].
  vm_compute in Hi. vm_compute in Hx.
  destruct i as [|[|i]]; [|done..].
  apply (inj Some) in Hi. subst arr.
  apply list_elem_of_singleton in Hx. done.
Qed.

(** C6 (amended): when no buffer has more samples than the engine accepts
    as arguments of one call, [getMaxValueFromData()] returns the greatest
    of 0 and the samples of the buffers that hold no NaN: it is at least 0
    and at least every such sample, and it is 0 or one of them.  When some
    buffer has more samples than that, it raises a RangeError.  It
    returns 0 when there is no buffer. *)
Theorem getMaxValueFromData_greatest_or_zero (me : LineChart.t) :
  (within_limit me ->
   exists m, LineChart.getMaxValueFromData me = Return m
             /\ is_max_sample_or_zero me m)
  /\ (~ within_limit me ->
      LineChart.getMaxValueFromData me = Raise RangeError)
  /\ (no_buffers me -> LineChart.getMaxValueFromData me = Return (Fin 0)).
Proof.
  split; [apply getMaxValueFromData_returns|].
  split; [apply getMaxValueFromData_raises|].
  intros Hnone.
  assert (Hw : within_limit me) by (intros i arr Hi; by rewrite Hnone in Hi).
  destruct (getMaxValueFromData_returns me Hw) as (m & Hm & _ & _ & Hin).
  rewrite Hm. destruct Hin as [->|(i & arr & Hi & _)]; [done|].
  by rewrite Hnone in Hi.
Qed.

Lemma getMaxValueFromData_greatest_or_zero_witness :
  no_buffers (LineChart.create example_page)
  /\ LineChart.getMaxValueFromData (LineChart.create example_page)
     = Return (Fin 0).
Proof.
  assert (H : no_buffers (LineChart.create example_page))
    by (intros i; by destruct i).
  split; [exact H|].
  exact (proj2 (proj2 (getMaxValueFromData_greatest_or_zero
                         (LineChart.create example_page))) H).
Defined.




(** C8: [push(lineId, value)] of a NumberChart gives the text element the
    pushed value as its content and changes nothing else, and the
    resulting chart is the same for any two identifiers. *)
Theorem NumberChart_push_ignores_lineId
    (V : Type) (me : NumberChart.t V) (a b : nat) (value : V) :
  NumberChart.valueContainer (NumberChart.push a value me)
  = NumberChart.Value value
  /\ NumberChart.chartMap (NumberChart.push a value me)
     = NumberChart.chartMap me
  /\ NumberChart.samplingTime (NumberChart.push a value me)
     = NumberChart.samplingTime me
  /\ NumberChart.n (NumberChart.push a value me) = NumberChart.n me
  /\ NumberChart.push a value me = NumberChart.push b value me.
Proof. repeat split. Qed.

(** C9: for both charts, [removeDataType] of an identifier that is not in
    [chartMap] removes the last, most recently added, entry of [chartMap]
    and keeps the entries before it. *)
Theorem removeDataType_unknown_drops_last
    (V : Type) (number : NumberChart.t V) (line : LineChart.t)
    (earlier : list nat) (latest dataType : nat) :
  NumberChart.chartMap number = earlier ++ [latest] ->
  LineChart.chartMap line = earlier ++ [latest] ->
  (dataType ∉ earlier ++ [latest]) ->
  indexOf (earlier ++ [latest]) dataType = -1
  /\ NumberChart.chartMap (NumberChart.removeDataType dataType number)
     = earlier
  /\ LineChart.chartMap (fst (LineChart.removeDataType dataType line))
     = earlier.
Proof.
  intros Hn Hl Habsent. pose proof (indexOf_absent _ _ Habsent) as Hidx.
  split; [exact Hidx|]. split.
  - unfold NumberChart.removeDataType. cbn [NumberChart.chartMap].
    rewrite Hn, Hidx. apply splice_last.
  - rewrite removeDataType_chartMap, Hl, Hidx. apply splice_last.
Qed.

Lemma removeDataType_unknown_drops_last_witness :
  let number : NumberChart.t Z :=
    NumberChart.addDataType 2 (NumberChart.addDataType 1 NumberChart.create) in
  let line :=
    LineChart.run [LineChart.AddDataType 1; LineChart.AddDataType 2]
      (LineChart.create example_page) in
  NumberChart.chartMap number = [1%nat] ++ [2%nat]
  /\ LineChart.chartMap line = [1%nat] ++ [2%nat]
  /\ (7%nat ∉ [1%nat] ++ [2%nat])
  /\ NumberChart.chartMap (NumberChart.removeDataType 7 number) = [1%nat]
  /\ LineChart.chartMap (fst (LineChart.removeDataType 7 line)) = [1%nat].
Proof.
  intros number line.
  assert (H1 : NumberChart.chartMap number = [1%nat] ++ [2%nat])
    by reflexivity.
  assert (H2 : LineChart.chartMap line = [1%nat] ++ [2%nat]) by reflexivity.
  assert (H3 : 7%nat ∉ [1%nat] ++ [2%nat])
    by (cbn; intros H;
        repeat (apply elem_of_cons in H as [H|H]; [discriminate|]);
        by apply elem_of_nil in H).
  split; [exact H1|]. split; [exact H2|]. split; [exact H3|].
  exact (proj2 (removeDataType_unknown_drops_last Z number line
                  [1%nat] 2%nat 7%nat H1 H2 H3)).
Defined.

(** C10: [setSamplingTime] changes the amount
    [period / samplingTime * 1000] and leaves every buffer as it is; a
    push leaves the buffer of its series with the new sample appended
    and at most the oldest sample dropped.  So when the new amount is
    below the length of a buffer, that buffer keeps its length, above the
    amount, through every later sequence of pushes. *)
Theorem setSamplingTime_overfull_stays
    (me : LineChart.t) (newSamplingTime : float) (s : nat) (arr : list number)
    (pushes : list LineChart.call) :
  at_index (LineChart.data me) s = Some arr ->
  num_ltb_len
    (value_of
       (LineChart.getAmountOfValues
          (LineChart.setSamplingTime newSamplingTime me)))
    (length arr) = true ->
  Forall is_push pushes ->
  let me1 := LineChart.setSamplingTime newSamplingTime me in
  let me2 := LineChart.run pushes me1 in
  LineChart.data me1 = LineChart.data me
  /\ LineChart.getAmountOfValues me1
     = (LineChart.period me / newSamplingTime * 1000)%float
  /\ (forall (me0 : LineChart.t) (s0 : nat) (v : number) (arr0 : list number),
        at_index (LineChart.data me0) s0 = Some arr0 ->
        exists arr1,
          at_index (LineChart.data (fst (LineChart.push s0 v me0))) s0
          = Some arr1
          /\ (arr1 = arr0 ++ [v] \/ arr1 = tl (arr0 ++ [v])))
  /\ exists arr',
       at_index (LineChart.data me2) s = Some arr'
       /\ length arr' = length arr
       /\ num_ltb_len (value_of (LineChart.getAmountOfValues me2))
            (length arr') = true.
Proof.
  intros Harr Hover Hpushes me1 me2.
  split; [reflexivity|]. split; [reflexivity|]. split.
  - intros me0 s0 v arr0 H0. rewrite (push_buffer me0 s0 v arr0 H0).
    destruct (len_geb _ _); eauto.
  - destruct (pushes_keep_length pushes me1 s arr Hpushes Harr Hover)
      as (Hamount & arr' & Harr' & Hlen).
    exists arr'. split; [exact Harr'|]. split; [exact Hlen|].
    unfold me2. by rewrite Hamount, Hlen.
Qed.

Lemma setSamplingTime_overfull_stays_witness :
  let me := fst (LineChart.addDataType 0 (LineChart.create example_page)) in
  at_index (LineChart.data me) 0 = Some (replicate 599 (Fin 0))
  /\ num_ltb_len
       (value_of
          (LineChart.getAmountOfValues (LineChart.setSamplingTime 20 me)))
       (length (replicate 599 (Fin 0))) = true
  /\ Forall is_push [LineChart.Push 0 (num 1); LineChart.Push 0 (num 2)]
  /\ LineChart.data (LineChart.setSamplingTime 20 me) = LineChart.data me.
Proof.
  cbv zeta.
  assert (H1 : at_index
                 (LineChart.data
                    (fst (LineChart.addDataType 0
                            (LineChart.create example_page))))
                 0 = Some (replicate 599 (Fin 0))) by (vm_compute; reflexivity).
  assert (H2 : num_ltb_len
       (value_of
          (LineChart.getAmountOfValues
             (LineChart.setSamplingTime 20
                (fst (LineChart.addDataType 0
                        (LineChart.create example_page))))))
       (length (replicate 599 (Fin 0))) = true) by (vm_compute; reflexivity).
  assert (H3 : Forall is_push
                 [LineChart.Push 0 (num 1); LineChart.Push 0 (num 2)])
    by (repeat constructor).
  split; [exact H1|]. split; [exact H2|]. split; [exact H3|].
  exact (proj1 (setSamplingTime_overfull_stays _ 20 0 _ _ H1 H2 H3)).
Defined.

(** * Further properties of the charts *)

(** ** changePeriod *)

Lemma num_ltb_len_false_le c (n len : nat) :
  is_length c n -> num_ltb_len c len = false -> (len <= n)%nat.
Proof.
  destruct c as [q| | |]; simpl; try done. intros Hq H.
  apply negb_false_iff, Qle_bool_iff in H. rewrite Hq in H.
  rewrite <- Zle_Qle in H. lia.
Qed.

Lemma adjust_array_length amount n d :
  toArrayLength amount = Some n ->
  LineChart.adjust amount d = (fmap (M:=option) (take n) <$> d, Normal).
Proof.
  intros Hn. pose proof (toArrayLength_Some _ _ Hn) as [Hlen _].
  induction d as [|[arr|] d IH]; simpl; [done| |].
  - rewrite Hn, IH. destruct (num_ltb_len amount (length arr)) eqn:E; [done|].
    rewrite take_ge; [done|]. by eapply num_ltb_len_false_le.
  - by rewrite IH.
Qed.

Lemma adjust_no_array_length amount d :
  toArrayLength amount = None ->
  fst (LineChart.adjust amount d) = d
  /\ ((exists i arr, d !! i = Some (Some arr)
                    /\ num_ltb_len amount (length arr) = true) ->
      snd (LineChart.adjust amount d) = Throw RangeError)
  /\ ((forall i arr, d !! i = Some (Some arr) ->
                    num_ltb_len amount (length arr) = false) ->
      snd (LineChart.adjust amount d) = Normal).
Proof.
  intros Hn. induction d as [|[arr|] d (IH1 & IH2 & IH3)]; simpl.
  - split; [done|]. split; [|done]. intros (i & arr & Hi & _).
    by rewrite lookup_nil in Hi.
  - rewrite Hn. destruct (num_ltb_len amount (length arr)) eqn:E.
    + split; [done|]. split; [done|]. intros Hall.
      specialize (Hall 0%nat arr eq_refl). congruence.
    + destruct (LineChart.adjust amount d) as [rest c]. simpl in *.
      split; [by rewrite IH1|]. split.
      * intros ([|i] & arr' & Hi & Hlen); simpl in Hi.
        -- injection Hi as <-. congruence.
        -- apply IH2. by exists i, arr'.
      * intros Hall. apply IH3. intros i arr' Hi. by apply (Hall (S i)).
  - destruct (LineChart.adjust amount d) as [rest c]. simpl in *.
    split; [by rewrite IH1|]. split.
    + intros ([|i] & arr' & Hi & Hlen); simpl in Hi; [done|].
      apply IH2. by exists i, arr'.
    + intros Hall. apply IH3. intros i arr' Hi. by apply (Hall (S i)).
Qed.

(** X1: when the amount for the new period, [newPeriod / samplingTime *
    1000] as the binary64 arithmetic gives it, is an array length [n],
    [changePeriod] returns, stores the period, and leaves of every buffer
    its first (oldest) [n] samples, so that no buffer is longer than [n];
    the series, the displayed maximum and the sampling time stay. *)
Theorem changePeriod_keeps_oldest
    (me : LineChart.t) (newPeriod : float) (n : nat) :
  is_length
    (value_of (newPeriod / LineChart.samplingTime me * 1000)%float) n ->
  Z.of_nat n < 2 ^ 32 ->
  let me' := fst (LineChart.changePeriod newPeriod me) in
  snd (LineChart.changePeriod newPeriod me) = Normal
  /\ LineChart.period me' = newPeriod
  /\ (forall s, at_index (LineChart.data me') s
                = take n <$> at_index (LineChart.data me) s)
  /\ (forall s arr, at_index (LineChart.data me') s = Some arr ->
                    (length arr <= n)%nat)
  /\ LineChart.chartMap me' = LineChart.chartMap me
  /\ LineChart.maxDisplayedValue me' = LineChart.maxDisplayedValue me
  /\ LineChart.samplingTime me' = LineChart.samplingTime me.
Proof.
  intros Hn Hbound me'.
  pose proof (toArrayLength_is_length _ _ Hn Hbound) as Hlen.
  destruct (changePeriod_state me newPeriod)
    as (Hd & Hc & Hp & Hm & Hmax & Hs & _).
  fold me' in Hd, Hp, Hm, Hmax, Hs.
  rewrite (adjust_array_length _ n) in Hd, Hc by exact Hlen.
  cbn [fst snd] in Hd, Hc.
  assert (Hdata : forall s,
    at_index (LineChart.data me') s
    = take n <$> at_index (LineChart.data me) s).
  { intros s. rewrite Hd. apply at_index_fmap. }
  repeat split; try done.
  intros s arr Harr. rewrite Hdata in Harr.
  destruct (at_index (LineChart.data me) s) as [old|]; [|done].
  injection Harr as <-. rewrite length_take. lia.
Qed.

Lemma changePeriod_keeps_oldest_witness :
  let me :=
    LineChart.run
      [LineChart.SetSamplingTime 2000; LineChart.AddDataType 0;
       LineChart.Push 0 (num 8); LineChart.Push 0 (num 9)]
      (LineChart.create example_page) in
  is_length (value_of (2 / LineChart.samplingTime me * 1000)%float) 1
  /\ Z.of_nat 1 < 2 ^ 32
  /\ at_index (LineChart.data me) 0 = Some [num 8; num 9]
  /\ at_index (LineChart.data (fst (LineChart.changePeriod 2 me))) 0
     = take 1 <$> at_index (LineChart.data me) 0.
Proof.
  intros me.
  assert (H1 : is_length
                 (value_of (2 / LineChart.samplingTime me * 1000)%float) 1)
    by (vm_compute; reflexivity).
  assert (H2 : Z.of_nat 1 < 2 ^ 32) by reflexivity.
  split; [exact H1|]. split; [exact H2|]. split; [reflexivity|].
  exact (proj1 (proj2 (proj2 (changePeriod_keeps_oldest me 2 1 H1 H2))) 0%nat).
Defined.

(** X2: when the amount for the new period is no array length (negative,
    fractional or not finite), [changePeriod] stores the period and
    leaves every buffer as it is; it raises a RangeError, and then leaves
    the x-scale as it is, when some buffer is longer than the amount, and
    returns when none is. *)
Theorem changePeriod_no_array_length
    (me : LineChart.t) (newPeriod : float) :
  toArrayLength
    (value_of (newPeriod / LineChart.samplingTime me * 1000)%float)
  = None ->
  let amount :=
    value_of (newPeriod / LineChart.samplingTime me * 1000)%float in
  let me' := fst (LineChart.changePeriod newPeriod me) in
  LineChart.period me' = newPeriod
  /\ LineChart.data me' = LineChart.data me
  /\ LineChart.maxDisplayedValue me' = LineChart.maxDisplayedValue me
  /\ ((exists s arr, at_index (LineChart.data me) s = Some arr
                    /\ num_ltb_len amount (length arr) = true) ->
      snd (LineChart.changePeriod newPeriod me) = Throw RangeError
      /\ LineChart.xDomain me' = LineChart.xDomain me)
  /\ ((forall s arr, at_index (LineChart.data me) s = Some arr ->
                    num_ltb_len amount (length arr) = false) ->
      snd (LineChart.changePeriod newPeriod me) = Normal).
Proof.
  intros Hnone amount me'.
  destruct (adjust_no_array_length amount (LineChart.data me) Hnone)
    as (Hd & Hraise & Hret).
  destruct (changePeriod_state me newPeriod)
    as (Hdata & Hc & Hp & _ & Hmax & _ & _ & _ & _ & Hx).
  fold me' amount in Hdata, Hc, Hp, Hmax, Hx.
  split; [exact Hp|]. split; [by rewrite Hdata|]. split; [exact Hmax|].
  split.
  - intros (s & arr & Harr & Hlong).
    assert (Hthrow : snd (LineChart.changePeriod newPeriod me)
                     = Throw RangeError).
    { rewrite Hc. apply Hraise. exists s, arr. split; [|done].
      by apply lookup_Some_at_index. }
    split; [exact Hthrow|]. apply Hx. by rewrite Hthrow.
  - intros Hall. rewrite Hc. apply Hret.
    intros i arr Hi. apply (Hall i). by apply lookup_Some_at_index.
Qed.

Lemma changePeriod_no_array_length_witness :
  let me :=
    LineChart.run
      [LineChart.SetSamplingTime 2000; LineChart.AddDataType 0]
      (LineChart.create example_page) in
  toArrayLength (value_of (0.5 / LineChart.samplingTime me * 1000)%float)
  = None
  /\ LineChart.data (fst (LineChart.changePeriod 0.5 me))
     = LineChart.data me.
Proof.
  intros me.
  assert (H : toArrayLength
                (value_of (0.5 / LineChart.samplingTime me * 1000)%float)
              = None)
    by reflexivity.
  split; [exact H|].
  exact (proj1 (proj2 (changePeriod_no_array_length me 0.5 H))).
Defined.

(** ** addDataType and removeDataType *)

Lemma legendEntries_cases table entries :
  (LineChart.legendEntries table entries = Normal
   /\ forall d, d ∈ entries -> table d <> None)
  \/ (LineChart.legendEntries table entries = Throw TypeError
      /\ exists d, d ∈ entries /\ table d = None).
Proof.
  induction entries as [|x l [[IH1 IH2]|[IH1 (y & Hy & Hnone)]]]; simpl.
  - left. split; [done|]. intros d Hd. by apply elem_of_nil in Hd.
  - destruct (table x) as [info|] eqn:E.
    + left. split; [done|]. intros d [->|Hd]%elem_of_cons; [congruence|].
      by apply IH2.
    + right. split; [done|]. exists x. split; [by left|done].
  - destruct (table x) as [info|] eqn:E.
    + right. split; [done|]. exists y. split; [by right|done].
    + right. split; [done|]. exists x. split; [by left|done].
Qed.

(** X3: [addDataType(s)] raises a RangeError exactly when
    [getAmountOfValues() - 1] is no array length, and then leaves the
    chart as it is.  Otherwise it stores a buffer of zeros for [s] and
    appends [s] to [chartMap]; after that it raises a TypeError exactly
    when [dataTypes] lacks [s] or an earlier entry of [chartMap], and
    returns when [dataTypes] has them all. *)
Theorem addDataType_raises_iff (me : LineChart.t) (s : nat) :
  let allocates :=
    exists len : nat,
      is_length (value_of (LineChart.getAmountOfValues me - 1)%float) len
      /\ Z.of_nat len < 2 ^ 32 in
  let known :=
    forall d, d ∈ LineChart.chartMap me ++ [s] ->
              dataTypes (LineChart.page me) d <> None in
  (snd (LineChart.addDataType s me) = Throw RangeError <-> ~ allocates)
  /\ (snd (LineChart.addDataType s me) = Throw RangeError ->
      fst (LineChart.addDataType s me) = me)
  /\ (snd (LineChart.addDataType s me) = Throw TypeError <->
      allocates /\ ~ known)
  /\ (snd (LineChart.addDataType s me) = Normal <-> allocates /\ known)
  /\ (allocates ->
      LineChart.chartMap (fst (LineChart.addDataType s me))
      = LineChart.chartMap me ++ [s]
      /\ exists len,
           at_index (LineChart.data (fst (LineChart.addDataType s me))) s
           = Some (replicate len (Fin 0))).
Proof.
  intros allocates known.
  destruct (toArrayLength
              (value_of (LineChart.getAmountOfValues me - 1)%float))
    as [len|] eqn:E.
  - assert (Ha : allocates) by (exists len; by apply toArrayLength_Some).
    destruct (addDataType_allocated me s len E) as [-> ->].
    assert (Hcases :
      (match dataTypes (LineChart.page me) s with
       | None => Throw TypeError
       | Some _ =>
           LineChart.legendEntries (dataTypes (LineChart.page me))
             (LineChart.chartMap me ++ [s])
       end = Normal /\ known)
      \/ (match dataTypes (LineChart.page me) s with
          | None => Throw TypeError
          | Some _ =>
              LineChart.legendEntries (dataTypes (LineChart.page me))
                (LineChart.chartMap me ++ [s])
          end = Throw TypeError /\ ~ known)).
    { destruct (dataTypes (LineChart.page me) s) as [info|] eqn:Hs.
      - destruct (legendEntries_cases (dataTypes (LineChart.page me))
                    (LineChart.chartMap me ++ [s]))
          as [[-> Hall]|[-> (d & Hd & Hnone)]]; [by left|].
        right. split; [done|]. intros Hk. by apply (Hk d).
      - right. split; [done|]. intros Hk. apply (Hk s); [|done].
        apply elem_of_app. right. by left. }
    split; [|split; [|split; [|split]]].
    + split; [|done]. by destruct Hcases as [[-> _]|[-> _]].
    + by destruct Hcases as [[-> _]|[-> _]].
    + destruct Hcases as [[-> Hk]|[-> Hk]]; split; try done. by intros [_ ?].
    + destruct Hcases as [[-> Hk]|[-> Hk]]; split; try done. by intros [_ ?].
    + intros _. split; [done|]. exists len. apply at_index_assign_eq.
  - assert (Ha : ~ allocates).
    { intros (len & Hlen & Hbound).
      by rewrite (toArrayLength_is_length _ _ Hlen Hbound) in E. }
    rewrite (addDataType_raises me s E). cbn [fst snd].
    split; [done|]. split; [done|]. split; [|split]; [| |done].
    + split; [done|]. by intros [? _].
    + split; [done|]. by intros [? _].
Qed.

(** X4: for both charts, [removeDataType] of an identifier that is in
    [chartMap] removes its first entry there and keeps every other entry
    in its place. *)
Theorem removeDataType_removes_first_entry
    (V : Type) (number : NumberChart.t V) (line : LineChart.t)
    (before after : list nat) (dataType : nat) :
  NumberChart.chartMap number = before ++ dataType :: after ->
  LineChart.chartMap line = before ++ dataType :: after ->
  (dataType ∉ before) ->
  NumberChart.chartMap (NumberChart.removeDataType dataType number)
  = before ++ after
  /\ LineChart.chartMap (fst (LineChart.removeDataType dataType line))
     = before ++ after.
Proof.
  intros Hn Hl Hfirst. split.
  - unfold NumberChart.removeDataType. cbn [NumberChart.chartMap].
    rewrite Hn. by apply splice_first.
  - rewrite removeDataType_chartMap, Hl. by apply splice_first.
Qed.

Lemma removeDataType_removes_first_entry_witness :
  let number : NumberChart.t Z :=
    number_run [NumberAddDataType 1; NumberAddDataType 2; NumberAddDataType 1]
      NumberChart.create in
  let line :=
    LineChart.run
      [LineChart.AddDataType 1; LineChart.AddDataType 2;
       LineChart.AddDataType 1] (LineChart.create example_page) in
  NumberChart.chartMap number = [] ++ 1%nat :: [2%nat; 1%nat]
  /\ LineChart.chartMap line = [] ++ 1%nat :: [2%nat; 1%nat]
  /\ (1%nat ∉ ([] : list nat))
  /\ NumberChart.chartMap (NumberChart.removeDataType 1 number)
     = [2%nat; 1%nat].
Proof.
  intros number line.
  assert (H1 : NumberChart.chartMap number = [] ++ 1%nat :: [2%nat; 1%nat])
    by reflexivity.
  assert (H2 : LineChart.chartMap line = [] ++ 1%nat :: [2%nat; 1%nat])
    by reflexivity.
  assert (H3 : 1%nat ∉ ([] : list nat)) by apply not_elem_of_nil.
  split; [exact H1|]. split; [exact H2|]. split; [exact H3|].
  exact (proj1 (removeDataType_removes_first_entry Z number line
                  [] [2%nat; 1%nat] 1%nat H1 H2 H3)).
Defined.

(** X5: on a NumberChart, adding an identifier that is not in [chartMap]
    and removing it again gives back the chart as it was. *)
Theorem NumberChart_add_remove
    (V : Type) (me : NumberChart.t V) (dataType : nat) :
  (dataType ∉ NumberChart.chartMap me) ->
  NumberChart.removeDataType dataType (NumberChart.addDataType dataType me)
  = me.
Proof.
  intros Hfresh. destruct me as [m t k text].
  unfold NumberChart.removeDataType, NumberChart.addDataType.
  cbn [NumberChart.chartMap NumberChart.samplingTime NumberChart.n
         NumberChart.valueContainer] in *.
  rewrite (splice_first m [] dataType Hfresh). by rewrite app_nil_r.
Qed.

Lemma NumberChart_add_remove_witness :
  (3%nat ∉ NumberChart.chartMap
             (NumberChart.addDataType 1 (NumberChart.create (V:=Z))))
  /\ NumberChart.removeDataType 3
       (NumberChart.addDataType 3
          (NumberChart.addDataType 1 (NumberChart.create (V:=Z))))
     = NumberChart.addDataType 1 NumberChart.create.
Proof.
  assert (H : 3%nat ∉ NumberChart.chartMap
                       (NumberChart.addDataType 1 (NumberChart.create (V:=Z))))
    by (cbn; intros H;
        repeat (apply elem_of_cons in H as [H|H]; [discriminate|]);
        by apply elem_of_nil in H).
  split; [exact H|].
  exact (NumberChart_add_remove Z _ 3%nat H).
Defined.

(** X6: on a LineChart, when [addDataType] of an identifier that is not
    in [chartMap] has stored its buffer (it raised no RangeError),
    removing the identifier again gives back [chartMap], leaves the
    identifier without a buffer and every other buffer, the period and
    the sampling time as they were; the displayed maximum is recomputed
    from the buffers when none of them has more samples than the engine
    accepts as arguments of one call, and stays as it was otherwise. *)
Theorem LineChart_add_remove (me : LineChart.t) (dataType : nat) :
  (dataType ∉ LineChart.chartMap me) ->
  snd (LineChart.addDataType dataType me) <> Throw RangeError ->
  let me' :=
    fst (LineChart.removeDataType dataType
           (fst (LineChart.addDataType dataType me))) in
  LineChart.chartMap me' = LineChart.chartMap me
  /\ at_index (LineChart.data me') dataType = None
  /\ (forall j, j <> dataType ->
        at_index (LineChart.data me') j = at_index (LineChart.data me) j)
  /\ LineChart.period me' = LineChart.period me
  /\ LineChart.samplingTime me' = LineChart.samplingTime me
  /\ (within_limit me' ->
      is_max_sample_or_zero me' (LineChart.maxDisplayedValue me'))
  /\ (~ within_limit me' ->
      LineChart.maxDisplayedValue me' = LineChart.maxDisplayedValue me).
Proof.
  intros Hfresh Hret me'.
  destruct (toArrayLength
              (value_of (LineChart.getAmountOfValues me - 1)%float))
    as [len|] eqn:E;
    [|by rewrite (addDataType_raises me dataType E) in Hret].
  pose proof (removeDataType_max
                (fst (LineChart.addDataType dataType me)) dataType)
    as [Hmax Hkeep].
  pose proof (removeDataType_config
                (fst (LineChart.addDataType dataType me)) dataType)
    as (Hp & Hs & _).
  fold me' in Hmax, Hkeep, Hp, Hs.
  destruct (addDataType_allocated me dataType len E) as [Hadd _].
  rewrite Hadd in Hkeep, Hp, Hs.
  split; [|split; [|split; [|split; [|split; [|split]]]]].
  - unfold me'. rewrite removeDataType_chartMap, Hadd.
    cbn [LineChart.chartMap LineChart.with_chartMap].
    rewrite (splice_first (LineChart.chartMap me) [] dataType Hfresh).
    by rewrite app_nil_r.
  - unfold me'. rewrite removeDataType_data. apply at_index_delete_eq.
  - intros j Hj. unfold me'. rewrite removeDataType_data.
    rewrite at_index_delete_ne by done. rewrite Hadd.
    cbn [LineChart.data LineChart.with_chartMap LineChart.with_data].
    by rewrite at_index_assign_ne.
  - exact Hp.
  - exact Hs.
  - intros Hw. by apply Hmax.
  - intros Hw. by apply Hkeep.
Qed.

Lemma LineChart_add_remove_witness :
  (3%nat ∉ LineChart.chartMap (LineChart.create example_page))
  /\ snd (LineChart.addDataType 3 (LineChart.create example_page))
     <> Throw RangeError
  /\ at_index
       (LineChart.data
          (fst (LineChart.removeDataType 3
                  (fst (LineChart.addDataType 3
                          (LineChart.create example_page)))))) 3
     = None.
Proof.
  assert (H1 : 3%nat ∉ LineChart.chartMap (LineChart.create example_page))
    by apply not_elem_of_nil.
  assert (H2 : snd (LineChart.addDataType 3 (LineChart.create example_page))
               <> Throw RangeError)
    by (vm_compute; discriminate).
  split; [exact H1|]. split; [exact H2|].
  exact (proj1 (proj2 (LineChart_add_remove (LineChart.create example_page)
                         3%nat H1 H2))).
Defined.

(** X7: a push to a series whose buffer [addDataType] has just stored
    raises no TypeError, and returns when it leaves no buffer with more
    samples than the engine accepts as arguments of one call; a push to a
    series that [removeDataType] has just removed raises a TypeError and
    leaves the chart as it is. *)
Theorem push_needs_buffer (me : LineChart.t) (s : nat) (v : number) :
  (snd (LineChart.addDataType s me) <> Throw RangeError ->
   snd (LineChart.push s v (fst (LineChart.addDataType s me)))
   <> Throw TypeError
   /\ (within_limit
         (fst (LineChart.push s v (fst (LineChart.addDataType s me)))) ->
       snd (LineChart.push s v (fst (LineChart.addDataType s me))) = Normal))
  /\ LineChart.push s v (fst (LineChart.removeDataType s me))
     = (fst (LineChart.removeDataType s me), Throw TypeError).
Proof.
  split.
  - intros Hret.
    destruct (toArrayLength
                (value_of (LineChart.getAmountOfValues me - 1)%float))
      as [len|] eqn:E;
      [|by rewrite (addDataType_raises me s E) in Hret].
    destruct (addDataType_allocated me s len E) as [-> _].
    match goal with
    | |- context [LineChart.push s v ?m] => set (me1 := m)
    end.
    assert (Hbuf : at_index (LineChart.data me1) s
                   = Some (replicate len (Fin 0)))
      by apply at_index_assign_eq.
    destruct (push_registered me1 s v _ Hbuf) as (_ & _ & _ & _ & _ & _ & Hc).
    split; [by destruct Hc as [->| ->]|].
    intros Hw. revert Hw. unfold LineChart.push. rewrite Hbuf. cbv zeta.
    destruct (len_geb _ _); [destruct (num_leb _ _)|];
      try (by destruct (num_ltb _ _)).
    match goal with
    | |- context [LineChart.getMaxValueFromData ?m] =>
        destruct (within_limit_or_not m) as [Hm|Hm];
        [destruct (getMaxValueFromData_returns m Hm) as (g & -> & _)
        |rewrite (getMaxValueFromData_raises m Hm)]
    end.
    + by destruct (num_ltb _ _).
    + cbn [fst snd]. intros Hw. by destruct Hm.
  - apply push_unregistered. rewrite removeDataType_data.
    apply at_index_delete_eq.
Qed.

Lemma push_needs_buffer_witness :
  snd (LineChart.addDataType 0 (LineChart.create example_page))
  <> Throw RangeError
  /\ snd (LineChart.push 0 (num 4)
            (fst (LineChart.addDataType 0 (LineChart.create example_page))))
     <> Throw TypeError.
Proof.
  assert (H : snd (LineChart.addDataType 0 (LineChart.create example_page))
              <> Throw RangeError)
    by (vm_compute; discriminate).
  split; [exact H|].
  exact (proj1 (proj1 (push_needs_buffer (LineChart.create example_page)
                         0 (num 4)) H)).
Defined.

(** ** push *)

Lemma push_value_le_max me s v arr :
  at_index (LineChart.data me) s = Some arr ->
  snd (LineChart.push s v me) = Normal ->
  v <> NaN ->
  LineChart.maxDisplayedValue me <> NaN ->
  num_le v (LineChart.maxDisplayedValue (fst (LineChart.push s v me))).
Proof.
  intros Harr Hret Hv Hmax. revert Hret. unfold LineChart.push.
  rewrite Harr. cbv zeta.
  destruct (len_geb _ _); [destruct (num_leb _ _)|].
  - match goal with
    | |- context [LineChart.getMaxValueFromData ?m] =>
        destruct (within_limit_or_not m) as [Hm|Hm];
        [destruct (getMaxValueFromData_returns m Hm) as (g & -> & Hg0 & _)
        |rewrite (getMaxValueFromData_raises m Hm)]
    end; [|done].
    intros _. assert (Hg : g <> NaN) by (by apply num_le_not_NaN in Hg0 as [_ ?]).
    cbn [LineChart.maxDisplayedValue LineChart.rescaleAxis
           LineChart.with_maxDisplayedValue].
    destruct (num_ltb g v) eqn:E; cbn.
    + by apply num_le_refl.
    + by apply num_ltb_false_le.
  - intros _. cbn [LineChart.maxDisplayedValue LineChart.with_data].
    destruct (num_ltb (LineChart.maxDisplayedValue me) v) eqn:E; cbn.
    + by apply num_le_refl.
    + by apply num_ltb_false_le.
  - intros _. cbn [LineChart.maxDisplayedValue LineChart.with_data].
    destruct (num_ltb (LineChart.maxDisplayedValue me) v) eqn:E; cbn.
    + by apply num_le_refl.
    + by apply num_ltb_false_le.
Qed.

(** X8: a push to a series with a buffer leaves every other buffer,
    [chartMap], the period, the sampling time and the x-scale as they
    are; when it returns, the pushed value is not NaN and the displayed
    maximum was not NaN, it leaves the displayed maximum at or above the
    pushed value. *)
Theorem push_leaves_the_rest
    (me : LineChart.t) (s : nat) (v : number) (arr : list number) :
  at_index (LineChart.data me) s = Some arr ->
  let me' := fst (LineChart.push s v me) in
  (forall j, j <> s ->
     at_index (LineChart.data me') j = at_index (LineChart.data me) j)
  /\ length (LineChart.data me') = length (LineChart.data me)
  /\ LineChart.chartMap me' = LineChart.chartMap me
  /\ LineChart.period me' = LineChart.period me
  /\ LineChart.samplingTime me' = LineChart.samplingTime me
  /\ LineChart.xDomain me' = LineChart.xDomain me
  /\ (snd (LineChart.push s v me) = Normal ->
      v <> NaN -> LineChart.maxDisplayedValue me <> NaN ->
      num_le v (LineChart.maxDisplayedValue me')).
Proof.
  intros Harr me'.
  destruct (push_registered me s v arr Harr)
    as (Hd & Hc & Hp & Hs & _ & Hx & _).
  split; [intros j Hj; by apply push_other_buffer|].
  split; [unfold me'; rewrite Hd; apply length_insert|].
  split; [exact Hc|]. split; [exact Hp|]. split; [exact Hs|].
  split; [exact Hx|]. intros Hret Hv Hmax. by eapply push_value_le_max.
Qed.

Lemma push_leaves_the_rest_witness :
  let me :=
    LineChart.run
      [LineChart.SetSamplingTime 2000; LineChart.AddDataType 0;
       LineChart.AddDataType 1] (LineChart.create example_page) in
  at_index (LineChart.data me) 0 = Some [Fin 0; Fin 0]
  /\ at_index (LineChart.data (fst (LineChart.push 0 (num 7) me))) 1
     = at_index (LineChart.data me) 1.
Proof.
  intros me.
  assert (H : at_index (LineChart.data me) 0 = Some [Fin 0; Fin 0])
    by reflexivity.
  split; [exact H|].
  exact (proj1 (push_leaves_the_rest me 0 (num 7) [Fin 0; Fin 0] H) 1%nat
           (Nat.neq_succ_0 0)).
Defined.

(** X9: in a chart whose displayed maximum is at least 0 and bounds the
    samples, a push that returns, of a value above the displayed maximum,
    makes that value the displayed maximum and the upper end of the
    y-scale. *)
Theorem push_above_max_sets_max
    (me : LineChart.t) (s : nat) (v : number) (arr : list number) :
  at_index (LineChart.data me) s = Some arr ->
  num_le (Fin 0) (LineChart.maxDisplayedValue me) ->
  (forall x, sample_of me x -> num_le x (LineChart.maxDisplayedValue me)) ->
  num_ltb (LineChart.maxDisplayedValue me) v = true ->
  snd (LineChart.push s v me) = Normal ->
  num_eq (LineChart.maxDisplayedValue (fst (LineChart.push s v me))) v
  /\ LineChart.yDomain (fst (LineChart.push s v me))
     = (LineChart.maxDisplayedValue (fst (LineChart.push s v me)), Fin 0).
Proof.
  intros Harr H0 Hall Hv Hret. revert Hret.
  pose proof (num_ltb_le _ _ Hv) as Hle.
  assert (Hvv : num_le v v).
  { apply num_le_refl. by apply num_le_not_NaN in Hle as [_ ?]. }
  unfold sample_of in Hall. unfold LineChart.push.
  rewrite Harr. cbv zeta.
  destruct (len_geb _ _); [destruct (num_leb _ _)|].
  - match goal with
    | |- context [LineChart.getMaxValueFromData ?m] =>
        destruct (within_limit_or_not m) as [Hm|Hm];
        [destruct (getMaxValueFromData_returns m Hm)
           as (g & -> & Hg0 & _ & Hgin)
        |rewrite (getMaxValueFromData_raises m Hm)]
    end; [|done].
    intros _.
    assert (Hg : num_le g v).
    { destruct Hgin as [->|Hgin];
        [by apply (num_le_trans _ (LineChart.maxDisplayedValue me))|].
      apply counted_in_sample in Hgin.
      cbn [LineChart.data LineChart.with_data] in Hgin.
      rewrite list_insert_insert_eq in Hgin.
      apply (sample_in_pushed _ s arr v) in Hgin as [->|Hgin];
        [done| |done|apply elem_of_tl].
      apply (num_le_trans _ (LineChart.maxDisplayedValue me)); [|done].
      by apply Hall. }
    cbn [LineChart.maxDisplayedValue LineChart.rescaleAxis
           LineChart.with_maxDisplayedValue].
    destruct (num_ltb g v) eqn:E; cbn; [done|].
    split; [|done]. split; [done|].
    apply num_ltb_false_le; [|by apply num_le_not_NaN in Hle as [_ ?]|done].
    by apply num_le_not_NaN in Hg0 as [_ ?].
  - intros _. cbn [LineChart.maxDisplayedValue LineChart.with_data].
    rewrite Hv. by cbn.
  - intros _. cbn [LineChart.maxDisplayedValue LineChart.with_data].
    rewrite Hv. by cbn.
Qed.

Lemma push_above_max_sets_max_witness :
  let me :=
    LineChart.run
      [LineChart.SetSamplingTime 2000; LineChart.AddDataType 0;
       LineChart.Push 0 (num 4)] (LineChart.create example_page) in
  at_index (LineChart.data me) 0 = Some [num 0; num 4]
  /\ num_le (Fin 0) (LineChart.maxDisplayedValue me)
  /\ (forall x, sample_of me x -> num_le x (LineChart.maxDisplayedValue me))
  /\ num_ltb (LineChart.maxDisplayedValue me) (num 9) = true
  /\ snd (LineChart.push 0 (num 9) me) = Normal
  /\ num_eq (LineChart.maxDisplayedValue (fst (LineChart.push 0 (num 9) me)))
       (num 9).
Proof.
  intros me.
  assert (H1 : at_index (LineChart.data me) 0 = Some [num 0; num 4])
    by reflexivity.
  assert (H2 : num_le (Fin 0) (LineChart.maxDisplayedValue me))
    by reflexivity.
  assert (H3 : forall x, sample_of me x ->
                 num_le x (LineChart.maxDisplayedValue me)).
  { intros x (i & a & Hi & Hx).
    destruct i as [|[|i]]; [|done..].
    vm_compute in Hi. apply (inj Some) in Hi. subst a.
    repeat (apply elem_of_cons in Hx as [->|Hx]; [reflexivity|]).
    by apply elem_of_nil in Hx. }
  assert (H4 : num_ltb (LineChart.maxDisplayedValue me) (num 9) = true)
    by reflexivity.
  assert (H5 : snd (LineChart.push 0 (num 9) me) = Normal) by reflexivity.
  split; [exact H1|]. split; [exact H2|]. split; [exact H3|].
  split; [exact H4|]. split; [exact H5|].
  exact (proj1 (push_above_max_sets_max me 0 (num 9) [num 0; num 4]
                  H1 H2 H3 H4 H5)).
Defined.

(** ** Buffers as windows of the pushed values *)

(** X10: a buffer that reaches the amount with one more sample is a
    sliding window: pushing a list of values to its series keeps its
    length and leaves it with the last samples of the old buffer followed
    by the pushed values; once as many values as the buffer holds are
    pushed, the buffer consists of the last pushed values alone. *)
Theorem full_buffer_slides
    (me : LineChart.t) (s : nat) (arr vs : list number) :
  at_index (LineChart.data me) s = Some arr ->
  len_geb (S (length arr)) (value_of (LineChart.getAmountOfValues me)) = true ->
  at_index (LineChart.data (LineChart.pushAll s vs me)) s
  = Some (drop (length vs) (arr ++ vs))
  /\ length (drop (length vs) (arr ++ vs)) = length arr
  /\ ((length arr <= length vs)%nat ->
      drop (length vs) (arr ++ vs) = drop (length vs - length arr) vs).
Proof.
  intros Harr Hfull. split; [by apply pushAll_window|]. split.
  - rewrite length_drop, length_app. lia.
  - intros Hle. rewrite drop_app_ge by done. reflexivity.
Qed.

Lemma full_buffer_slides_witness :
  let me :=
    LineChart.run
      [LineChart.SetSamplingTime 2000; LineChart.AddDataType 0]
      (LineChart.create example_page) in
  at_index (LineChart.data me) 0 = Some [Fin 0; Fin 0]
  /\ len_geb (S (length [Fin 0; Fin 0]))
       (value_of (LineChart.getAmountOfValues me)) = true
  /\ at_index
       (LineChart.data (LineChart.pushAll 0 [num 1; num 2; num 3] me)) 0
     = Some (drop (length [num 1; num 2; num 3])
               ([Fin 0; Fin 0] ++ [num 1; num 2; num 3])).
Proof.
  intros me.
  assert (H1 : at_index (LineChart.data me) 0 = Some [Fin 0; Fin 0])
    by reflexivity.
  assert (H2 : len_geb (S (length [Fin 0; Fin 0]))
                 (value_of (LineChart.getAmountOfValues me)) = true)
    by reflexivity.
  split; [exact H1|]. split; [exact H2|].
  exact (proj1 (full_buffer_slides me 0 [Fin 0; Fin 0]
                  [num 1; num 2; num 3] H1 H2)).
Defined.

Lemma len_geb_mono c (m n : nat) :
  (m <= n)%nat -> len_geb n c = false -> len_geb m c = false.
Proof.
  destruct c as [q| | |]; simpl; try done. intros Hmn Hn.
  destruct (Qle_bool q (inject_Z (Z.of_nat m))) eqn:Hm; [|done].
  apply Qle_bool_iff in Hm.
  assert (Hq : Qle_bool q (inject_Z (Z.of_nat n)) = true).
  { apply Qle_bool_iff. eapply Qle_trans; [exact Hm|].
    rewrite <- Zle_Qle. lia. }
  congruence.
Qed.

Lemma pushAll_below vs : forall me s (arr : list number),
  at_index (LineChart.data me) s = Some arr ->
  len_geb (length arr + length vs)
    (value_of (LineChart.getAmountOfValues me)) = false ->
  at_index (LineChart.data (LineChart.pushAll s vs me)) s = Some (arr ++ vs).
Proof.
  induction vs as [|v vs IH]; intros me s arr Harr Hbelow.
  - simpl. by rewrite app_nil_r.
  - unfold LineChart.pushAll, LineChart.run. simpl.
    fold (LineChart.run (map (LineChart.Push s) vs)
            (fst (LineChart.push s v me))).
    fold (LineChart.pushAll s vs (fst (LineChart.push s v me))).
    assert (Hnext : at_index (LineChart.data (fst (LineChart.push s v me))) s
                    = Some (arr ++ [v])).
    { rewrite (push_buffer me s v arr Harr).
      rewrite (len_geb_mono _ (length (arr ++ [v]))
                 (length arr + length (v :: vs))); [done| |done].
      rewrite length_app. simpl. lia. }
    rewrite (IH _ _ _ Hnext).
    + by rewrite <- app_assoc.
    + rewrite push_amount, length_app. simpl in *.
      by replace (length arr + 1 + length vs)%nat
        with (length arr + S (length vs))%nat by lia.
Qed.

(** X11: while the pushed values together with the buffer stay below the
    amount, nothing is evicted: the buffer grows by the pushed values, in
    their order (so a buffer that [changePeriod] has left short of a
    larger amount fills up again sample by sample). *)
Theorem short_buffer_grows
    (me : LineChart.t) (s : nat) (arr vs : list number) :
  at_index (LineChart.data me) s = Some arr ->
  len_geb (length arr + length vs)
    (value_of (LineChart.getAmountOfValues me)) = false ->
  at_index (LineChart.data (LineChart.pushAll s vs me)) s = Some (arr ++ vs)
  /\ length (arr ++ vs) = (length arr + length vs)%nat.
Proof.
  intros Harr Hbelow. split; [by apply pushAll_below|apply length_app].
Qed.

Lemma short_buffer_grows_witness :
  let me :=
    fst (LineChart.changePeriod 12
           (LineChart.run
              [LineChart.SetSamplingTime 2000; LineChart.AddDataType 0]
              (LineChart.create example_page))) in
  at_index (LineChart.data me) 0 = Some [Fin 0; Fin 0]
  /\ len_geb (length [Fin 0; Fin 0] + length [num 1; num 2; num 3])
       (value_of (LineChart.getAmountOfValues me)) = false
  /\ at_index
       (LineChart.data (LineChart.pushAll 0 [num 1; num 2; num 3] me)) 0
     = Some ([Fin 0; Fin 0] ++ [num 1; num 2; num 3]).
Proof.
  intros me.
  assert (H1 : at_index (LineChart.data me) 0 = Some [Fin 0; Fin 0])
    by reflexivity.
  assert (H2 : len_geb (length [Fin 0; Fin 0] + length [num 1; num 2; num 3])
                 (value_of (LineChart.getAmountOfValues me)) = false)
    by reflexivity.
  split; [exact H1|]. split; [exact H2|].
  exact (proj1 (short_buffer_grows me 0 [Fin 0; Fin 0]
                  [num 1; num 2; num 3] H1 H2)).
Defined.

(** ** Buffers and the amount, for any period and sampling time *)

Lemma below_amount_step me c :
  keeps_config c ->
  (forall len,
     toArrayLength (value_of (LineChart.getAmountOfValues me - 1)%float)
     = Some len ->
     len_geb len (value_of (LineChart.getAmountOfValues me)) = false) ->
  (forall s arr, at_index (LineChart.data me) s = Some arr ->
     len_geb (length arr) (value_of (LineChart.getAmountOfValues me))
     = false) ->
  LineChart.getAmountOfValues (LineChart.step me c)
  = LineChart.getAmountOfValues me
  /\ forall s arr,
       at_index (LineChart.data (LineChart.step me c)) s = Some arr ->
       len_geb (length arr) (value_of (LineChart.getAmountOfValues me))
       = false.
Proof.
  intros Hc Halloc Hbelow. destruct c as [s v|s|s|p|t]; cbn [LineChart.step];
    try done.
  - split; [apply push_amount|]. intros j arr' Hj.
    destruct (decide (s = j)) as [<-|Hne].
    + destruct (at_index (LineChart.data me) s) as [arr|] eqn:Harr.
      * rewrite (push_buffer me s v arr Harr) in Hj.
        destruct (len_geb (length (arr ++ [v])) _) eqn:E;
          injection Hj as <-; [|done].
        rewrite length_tl_snoc. by eapply Hbelow.
      * rewrite push_unregistered in Hj by done. simpl in Hj. congruence.
    + rewrite push_other_buffer in Hj by done. by eapply Hbelow.
  - destruct (toArrayLength
                (value_of (LineChart.getAmountOfValues me - 1)%float))
      as [len|] eqn:E.
    + destruct (addDataType_allocated me s len E) as [-> _].
      split; [done|]. intros j arr' Hj.
      cbn [LineChart.data LineChart.with_chartMap LineChart.with_data] in Hj.
      destruct (decide (s = j)) as [<-|Hne].
      * rewrite at_index_assign_eq in Hj.
        replace arr' with (replicate len (Fin 0)) by congruence.
        rewrite length_replicate. by apply Halloc.
      * rewrite at_index_assign_ne in Hj by done. by eapply Hbelow.
    + rewrite (addDataType_raises me s E). done.
  - destruct (removeDataType_config me s) as (Hp & Hs & _).
    split.
    { unfold LineChart.getAmountOfValues, LineChart.getSamplingTime.
      by rewrite Hp, Hs. }
    intros j arr' Hj. rewrite removeDataType_data in Hj.
    destruct (decide (s = j)) as [<-|Hne].
    + by rewrite at_index_delete_eq in Hj.
    + rewrite at_index_delete_ne in Hj by done. by eapply Hbelow.
Qed.

(** X12: for any period and sampling time, when every buffer is below the
    amount (its length has not reached it), and so is the length
    [getAmountOfValues() - 1] that [addDataType] allocates when that is
    an array length, then every buffer is below the amount after any
    calls of [push], [addDataType] and [removeDataType]; the amount
    itself stays. *)
Theorem buffers_stay_below_amount
    (calls : list LineChart.call) (me : LineChart.t) :
  Forall keeps_config calls ->
  (forall len,
     toArrayLength (value_of (LineChart.getAmountOfValues me - 1)%float)
     = Some len ->
     len_geb len (value_of (LineChart.getAmountOfValues me)) = false) ->
  (forall s arr, at_index (LineChart.data me) s = Some arr ->
     len_geb (length arr) (value_of (LineChart.getAmountOfValues me))
     = false) ->
  LineChart.getAmountOfValues (LineChart.run calls me)
  = LineChart.getAmountOfValues me
  /\ forall s arr,
       at_index (LineChart.data (LineChart.run calls me)) s = Some arr ->
       len_geb (length arr) (value_of (LineChart.getAmountOfValues me))
       = false.
Proof.
  revert me. induction calls as [|c calls IH];
    intros me Hcalls Halloc Hbelow; [done|].
  apply Forall_cons in Hcalls as [Hc Hcalls].
  destruct (below_amount_step me c Hc Halloc Hbelow) as [Hamount Hnext].
  destruct (IH (LineChart.step me c) Hcalls) as [Ha Hb].
  { by rewrite Hamount. }
  { by rewrite Hamount. }
  cbn [LineChart.run foldl]. fold (LineChart.run calls (LineChart.step me c)).
  split; [by rewrite Ha|]. intros s arr Harr. rewrite <- Hamount.
  by eapply Hb.
Qed.

Lemma buffers_stay_below_amount_witness :
  let me := LineChart.setSamplingTime 2000 (LineChart.create example_page) in
  let calls :=
    [LineChart.AddDataType 0; LineChart.Push 0 (num 1);
     LineChart.Push 0 (num 2)] in
  Forall keeps_config calls
  /\ (forall len,
        toArrayLength (value_of (LineChart.getAmountOfValues me - 1)%float)
        = Some len ->
        len_geb len (value_of (LineChart.getAmountOfValues me)) = false)
  /\ (forall s arr, at_index (LineChart.data me) s = Some arr ->
        len_geb (length arr) (value_of (LineChart.getAmountOfValues me))
        = false)
  /\ LineChart.getAmountOfValues (LineChart.run calls me)
     = LineChart.getAmountOfValues me.
Proof.
  intros me calls.
  assert (H1 : Forall keeps_config calls) by (repeat constructor).
  assert (H2 : forall len,
        toArrayLength (value_of (LineChart.getAmountOfValues me - 1)%float)
        = Some len ->
        len_geb len (value_of (LineChart.getAmountOfValues me)) = false).
  { intros len Hlen. vm_compute in Hlen. injection Hlen as <-.
    vm_compute. reflexivity. }
  assert (H3 : forall s arr, at_index (LineChart.data me) s = Some arr ->
                 len_geb (length arr)
                   (value_of (LineChart.getAmountOfValues me))
                 = false) by (intros s arr H; by destruct s).
  split; [exact H1|]. split; [exact H2|]. split; [exact H3|].
  exact (proj1 (buffers_stay_below_amount calls me H1 H2 H3)).
Defined.




(** ** The displayed maximum and the y-scale *)

Lemma push_rescales me s v :
  let me' := fst (LineChart.push s v me) in
  (LineChart.maxDisplayedValue me' = LineChart.maxDisplayedValue me
   /\ LineChart.yDomain me' = LineChart.yDomain me
   /\ LineChart.rescales me' = LineChart.rescales me)
  \/ (LineChart.yDomain me' = (LineChart.maxDisplayedValue me', Fin 0)
      /\ LineChart.rescales me' <> 0%nat).
Proof.
  unfold LineChart.push.
  destruct (at_index (LineChart.data me) s) as [arr|]; [|by left].
  cbv zeta.
  destruct (len_geb _ _);
    [destruct (num_leb _ _); [destruct (LineChart.getMaxValueFromData _)|]|];
    cbn [LineChart.maxDisplayedValue LineChart.rescaleAxis
           LineChart.with_maxDisplayedValue LineChart.with_data];
    try match goal with
        | |- context [num_ltb ?m v] => destruct (num_ltb m v)
        end;
    cbn; auto.
Qed.

(** X14: in every chart reached from the constructed one without a call
    of [removeDataType], the y-scale either is the constructor's [1, 0],
    with no rescale so far and a displayed maximum of 0, or has the
    domain [maxDisplayedValue, 0]. *)
Theorem yScale_follows_max
    (thePage : globals) (calls : list LineChart.call) :
  Forall keeps_series calls ->
  let me := LineChart.run calls (LineChart.create thePage) in
  (LineChart.rescales me = 0%nat
   /\ LineChart.yDomain me = (Fin 1, Fin 0)
   /\ LineChart.maxDisplayedValue me = Fin 0)
  \/ LineChart.yDomain me = (LineChart.maxDisplayedValue me, Fin 0).
Proof.
  intros Hcalls.
  assert (Hgen : forall me,
    ((LineChart.rescales me = 0%nat
      /\ LineChart.yDomain me = (Fin 1, Fin 0)
      /\ LineChart.maxDisplayedValue me = Fin 0)
     \/ LineChart.yDomain me = (LineChart.maxDisplayedValue me, Fin 0)) ->
    (LineChart.rescales (LineChart.run calls me) = 0%nat
     /\ LineChart.yDomain (LineChart.run calls me) = (Fin 1, Fin 0)
     /\ LineChart.maxDisplayedValue (LineChart.run calls me) = Fin 0)
    \/ LineChart.yDomain (LineChart.run calls me)
       = (LineChart.maxDisplayedValue (LineChart.run calls me), Fin 0)).
  { induction Hcalls as [|c calls Hc Hcalls IH]; intros me Hme; [done|].
    apply (IH (LineChart.step me c)).
    destruct c as [s v|s|s|p|t]; cbn [LineChart.step]; try done.
    - destruct (push_rescales me s v) as [(Hm & Hy & Hr)|[Hy Hr]];
        [|by right].
      rewrite Hm, Hy, Hr. exact Hme.
    - unfold LineChart.addDataType.
      destruct (toArrayLength _); [|done].
      cbv zeta. by destruct (dataTypes _ _).
    - destruct (changePeriod_state me p)
        as (_ & _ & _ & _ & -> & _ & _ & -> & -> & _).
      exact Hme. }
  apply Hgen. left. done.
Qed.

Lemma yScale_follows_max_witness :
  let calls :=
    [LineChart.SetSamplingTime 2000; LineChart.AddDataType 0;
     LineChart.Push 0 (num 4); LineChart.ChangePeriod 2] in
  Forall keeps_series calls
  /\ LineChart.yDomain (LineChart.run calls (LineChart.create example_page))
     = (LineChart.maxDisplayedValue
          (LineChart.run calls (LineChart.create example_page)), Fin 0).
Proof.
  intros calls.
  assert (H : Forall keeps_series calls) by (repeat constructor).
  split; [exact H|].
  destruct (yScale_follows_max example_page calls H) as [(Hr & _)|Hy].
  - vm_compute in Hr. discriminate Hr.
  - exact Hy.
Defined.

Lemma stays_within_limit_run calls : forall me,
  within_limit me -> stays_within_limit calls me ->
  within_limit (LineChart.run calls me).
Proof.
  induction calls as [|c calls IH]; intros me Hme Hcalls; [done|].
  destruct Hcalls as [Hw Hcalls]. by apply (IH (LineChart.step me c)).
Qed.

(** X15: in every chart reached from the constructed one by calls that
    push no NaN and leave no buffer with more samples than the engine
    accepts as arguments of one call, the displayed maximum is at least 0
    and at least what [getMaxValueFromData()] returns. *)
Theorem maxDisplayedValue_not_below_data
    (thePage : globals) (calls : list LineChart.call) :
  Forall pushes_no_NaN calls ->
  stays_within_limit calls (LineChart.create thePage) ->
  let me := LineChart.run calls (LineChart.create thePage) in
  num_le (Fin 0) (LineChart.maxDisplayedValue me)
  /\ exists g, LineChart.getMaxValueFromData me = Return g
               /\ num_le g (LineChart.maxDisplayedValue me).
Proof.
  intros Hcalls Hlimit me.
  destruct (run_bound calls (LineChart.create thePage) Hcalls Hlimit
              (create_bound thePage)) as [H0 Hall].
  fold me in H0, Hall. split; [exact H0|].
  assert (Hw : within_limit me).
  { apply stays_within_limit_run; [|done]. intros i arr Hi. by destruct i. }
  destruct (getMaxValueFromData_returns me Hw) as (g & Hg & _ & _ & Hin).
  exists g. split; [exact Hg|].
  destruct Hin as [->|Hin]; [exact H0|].
  apply Hall. by apply counted_in_sample.
Qed.

Lemma maxDisplayedValue_not_below_data_witness :
  let calls :=
    [LineChart.SetSamplingTime 3000; LineChart.AddDataType 0;
     LineChart.Push 0 (num 5); LineChart.Push 0 (num 2)] in
  Forall pushes_no_NaN calls
  /\ stays_within_limit calls (LineChart.create example_page)
  /\ num_le (Fin 0)
       (LineChart.maxDisplayedValue
          (LineChart.run calls (LineChart.create example_page))).
Proof.
  intros calls.
  assert (H1 : Forall pushes_no_NaN calls) by (repeat constructor; done).
  assert (H2 : stays_within_limit calls (LineChart.create example_page)).
  { repeat split; intros [|[|i]] a Hi; vm_compute in Hi;
      try discriminate Hi; injection Hi as <-; vm_compute; discriminate. }
  split; [exact H1|]. split; [exact H2|].
  exact (proj1 (maxDisplayedValue_not_below_data example_page calls H1 H2)).
Defined.

(** ** chartMap and the buffers under a careful data feed *)

Lemma push_chartMap me s v :
  LineChart.chartMap (fst (LineChart.push s v me)) = LineChart.chartMap me.
Proof.
  destruct (at_index (LineChart.data me) s) as [arr|] eqn:H.
  - by destruct (push_registered me s v arr H) as (_ & -> & _).
  - by rewrite push_unregistered.
Qed.

Lemma push_is_Some me s v j :
  is_Some (at_index (LineChart.data (fst (LineChart.push s v me))) j)
  <-> is_Some (at_index (LineChart.data me) j).
Proof.
  destruct (decide (s = j)) as [<-|Hne].
  - destruct (at_index (LineChart.data me) s) as [arr|] eqn:H.
    + rewrite (push_buffer me s v arr H). split; eauto.
    + rewrite push_unregistered by done. simpl. by rewrite H.
  - by rewrite push_other_buffer.
Qed.

Lemma adjust_is_Some amount d : forall j,
  is_Some (at_index (fst (LineChart.adjust amount d)) j)
  <-> is_Some (at_index d j).
Proof.
  induction d as [|[arr|] d IH]; intros j; simpl; [done| |].
  - destruct (num_ltb_len amount (length arr)).
    + destruct (toArrayLength amount) as [len|]; [|done].
      specialize (IH (pred j)).
      destruct (LineChart.adjust amount d) as [rest c]. simpl in *.
      destruct j as [|j]; [split; eauto|exact IH].
    + specialize (IH (pred j)).
      destruct (LineChart.adjust amount d) as [rest c]. simpl in *.
      destruct j as [|j]; [split; eauto|exact IH].
  - specialize (IH (pred j)).
    destruct (LineChart.adjust amount d) as [rest c]. simpl in *.
    destruct j as [|j]; [done|exact IH].
Qed.

Lemma changePeriod_series me p :
  LineChart.chartMap (fst (LineChart.changePeriod p me))
  = LineChart.chartMap me
  /\ forall j,
       is_Some (at_index (LineChart.data (fst (LineChart.changePeriod p me))) j)
       <-> is_Some (at_index (LineChart.data me) j).
Proof.
  destruct (changePeriod_state me p) as (-> & _ & _ & -> & _).
  split; [done|]. intros j. apply adjust_is_Some.
Qed.

Lemma careful_step me c :
  careful me c ->
  (NoDup (LineChart.chartMap me)
   /\ forall x, x ∈ LineChart.chartMap me
                <-> is_Some (at_index (LineChart.data me) x)) ->
  NoDup (LineChart.chartMap (LineChart.step me c))
  /\ forall x, x ∈ LineChart.chartMap (LineChart.step me c)
               <-> is_Some (at_index (LineChart.data (LineChart.step me c)) x).
Proof.
  intros Hc [Hnd Hiff]. destruct c as [s v|s|s|p|t]; cbn [LineChart.step].
  - rewrite push_chartMap. split; [done|]. intros x.
    by rewrite push_is_Some.
  - simpl in Hc.
    destruct (toArrayLength
                (value_of (LineChart.getAmountOfValues me - 1)%float))
      as [len|] eqn:E; [|by rewrite (addDataType_raises me s E)].
    destruct (addDataType_allocated me s len E) as [-> _].
    cbn [LineChart.chartMap LineChart.data LineChart.with_chartMap
           LineChart.with_data].
    split.
    + apply NoDup_app. split; [done|]. split; [|apply NoDup_singleton].
      intros y Hy Hys. apply list_elem_of_singleton in Hys. by subst.
    + intros x. rewrite elem_of_app, list_elem_of_singleton.
      destruct (decide (s = x)) as [<-|Hne].
      * rewrite at_index_assign_eq. split; eauto.
      * rewrite at_index_assign_ne by done. rewrite <- Hiff.
        split; [intros [?|?]; [done|congruence]|by left].
  - simpl in Hc.
    apply list_elem_of_split_l in Hc as (l1 & l2 & Hl & Hfirst).
    rewrite removeDataType_data, removeDataType_chartMap.
    rewrite Hl in *. rewrite splice_first by done.
    apply NoDup_app in Hnd as (Hnd1 & Hdisj & Hnd2).
    apply NoDup_cons in Hnd2 as [Hlast Hnd2].
    split.
    + apply NoDup_app. split; [done|]. split; [|done].
      intros y Hy Hy2. apply (Hdisj y Hy). by right.
    + intros x. destruct (decide (s = x)) as [<-|Hne].
      * rewrite at_index_delete_eq, elem_of_app. split.
        -- intros [H|H]; done.
        -- by intros [? ?].
      * rewrite at_index_delete_ne by done. rewrite <- Hiff.
        rewrite !elem_of_app, elem_of_cons.
        split; [intros [?|?]; auto|intros [?|[?|?]]; [auto|congruence|auto]].
  - destruct (changePeriod_series me p) as [-> Hsome].
    split; [done|]. intros x. by rewrite Hsome.
  - done.
Qed.

(** X16: when a data feed adds only identifiers that are not in
    [chartMap] and removes only identifiers that are, then after any of
    its calls [chartMap] has no identifier twice, and an identifier is in
    [chartMap] exactly when it has a buffer. *)
Theorem careful_feed_keeps_series
    (thePage : globals) (calls : list LineChart.call) :
  careful_run calls (LineChart.create thePage) ->
  let me := LineChart.run calls (LineChart.create thePage) in
  NoDup (LineChart.chartMap me)
  /\ forall x, x ∈ LineChart.chartMap me
               <-> is_Some (at_index (LineChart.data me) x).
Proof.
  assert (Hgen : forall me,
    careful_run calls me ->
    (NoDup (LineChart.chartMap me)
     /\ forall x, x ∈ LineChart.chartMap me
                  <-> is_Some (at_index (LineChart.data me) x)) ->
    NoDup (LineChart.chartMap (LineChart.run calls me))
    /\ forall x, x ∈ LineChart.chartMap (LineChart.run calls me)
                 <-> is_Some (at_index (LineChart.data (LineChart.run calls me)) x)).
  { induction calls as [|c calls IH]; intros me Hcalls Hme; [done|].
    destruct Hcalls as [Hc Hcalls].
    apply (IH (LineChart.step me c) Hcalls). by apply careful_step. }
  intros Hcalls. apply Hgen; [done|]. split; [apply NoDup_nil_2|].
  intros x. split.
  - intros H. by apply elem_of_nil in H.
  - intros [a H]. by destruct x.
Qed.

Lemma careful_feed_keeps_series_witness :
  let calls :=
    [LineChart.AddDataType 1; LineChart.AddDataType 2;
     LineChart.Push 1 (num 5); LineChart.RemoveDataType 1] in
  careful_run calls (LineChart.create example_page)
  /\ NoDup (LineChart.chartMap
              (LineChart.run calls (LineChart.create example_page))).
Proof.
  intros calls.
  assert (H : careful_run calls (LineChart.create example_page)).
  { cbn [calls careful_run careful].
    split; [apply not_elem_of_nil|].
    split; [vm_compute; intros H;
            repeat (apply elem_of_cons in H as [H|H]; [discriminate|]);
            by apply elem_of_nil in H|].
    split; [exact I|].
    split; [vm_compute; by left|exact I]. }
  split; [exact H|].
  exact (proj1 (careful_feed_keeps_series example_page calls H)).
Defined.

(** ** NumberChart over a sequence of calls *)

Lemma number_run_without_push {V : Type} (calls : list (number_call V)) :
  forall me,
  Forall (fun c => ~ is_number_push c) calls ->
  NumberChart.valueContainer (number_run calls me)
  = NumberChart.valueContainer me.
Proof.
  induction calls as [|c calls IH]; intros me Hcalls; [done|].
  apply Forall_cons in Hcalls as [Hc Hcalls].
  cbn [number_run foldl]. fold (number_run calls (number_step me c)).
  rewrite IH by done. destruct c; simpl in *; [by destruct Hc|done..].
Qed.

(** X17: after any sequence of calls on a NumberChart the content of the
    text element is the last pushed value, whatever the identifiers of
    the pushes and whatever calls of [addDataType], [removeDataType] and
    [setSamplingTime] come before, between or after; without any push
    the content stays. *)
Theorem NumberChart_shows_last_push
    (V : Type) (me : NumberChart.t V) (before after : list (number_call V))
    (lineId : nat) (value : V) :
  Forall (fun c => ~ is_number_push c) after ->
  NumberChart.valueContainer
    (number_run (before ++ NumberPush lineId value :: after) me)
  = NumberChart.Value value
  /\ NumberChart.valueContainer (number_run after me)
     = NumberChart.valueContainer me.
Proof.
  intros Hafter. split; [|by apply number_run_without_push].
  unfold number_run. rewrite foldl_app. cbn [foldl].
  fold (number_run before me).
  fold (number_run after
          (number_step (number_run before me) (NumberPush lineId value))).
  by rewrite number_run_without_push.
Qed.

Lemma NumberChart_shows_last_push_witness :
  Forall (fun c : number_call Z => ~ is_number_push c)
    [NumberRemoveDataType 2; NumberSetSamplingTime 20]
  /\ NumberChart.valueContainer
       (number_run
          ([NumberAddDataType 1; NumberPush 1 3]
             ++ NumberPush 2 (-7)
             :: [NumberRemoveDataType 2; NumberSetSamplingTime 20])
          NumberChart.create)
     = NumberChart.Value (-7).
Proof.
  assert (H : Forall (fun c : number_call Z => ~ is_number_push c)
                [NumberRemoveDataType 2; NumberSetSamplingTime 20])
    by (repeat constructor; intros []).
  split; [exact H|].
  exact (proj1 (NumberChart_shows_last_push Z NumberChart.create
                  [NumberAddDataType 1; NumberPush 1 3]
                  [NumberRemoveDataType 2; NumberSetSamplingTime 20]
                  2%nat (-7) H)).
Defined.

(** ** An identifier added twice *)

(** X18: when [addDataType] of an identifier returns and is called once
    more, and [removeDataType] of the identifier once, the identifier is
    still in [chartMap] but has no buffer, so that a push to it raises a
    TypeError. *)
Theorem added_twice_removed_once
    (me : LineChart.t) (s : nat) (v : number) :
  snd (LineChart.addDataType s me) = Normal ->
  let me' :=
    fst (LineChart.removeDataType s
           (fst (LineChart.addDataType s
                   (fst (LineChart.addDataType s me))))) in
  s ∈ LineChart.chartMap me'
  /\ at_index (LineChart.data me') s = None
  /\ snd (LineChart.push s v me') = Throw TypeError.
Proof.
  intros Hret me'.
  destruct (toArrayLength
              (value_of (LineChart.getAmountOfValues me - 1)%float))
    as [len|] eqn:E; [|by rewrite (addDataType_raises me s E) in Hret].
  assert (Hgone : at_index (LineChart.data me') s = None).
  { unfold me'. rewrite removeDataType_data. apply at_index_delete_eq. }
  split; [|split; [exact Hgone|by rewrite push_unregistered]].
  unfold me'. rewrite removeDataType_chartMap.
  destruct (addDataType_allocated me s len E) as [-> _].
  destruct (addDataType_allocated
              (LineChart.with_chartMap (LineChart.chartMap me ++ [s])
                 (LineChart.with_data
                    (assign (LineChart.data me) s (replicate len (Fin 0))) me))
              s len E) as [-> _].
  cbn [LineChart.chartMap LineChart.with_data LineChart.with_chartMap].
  destruct (decide (s ∈ LineChart.chartMap me)) as [Hin|Hout].
  - apply list_elem_of_split_l in Hin as (l1 & l2 & -> & Hfirst).
    rewrite <- !app_assoc. cbn [app].
    rewrite splice_first by done.
    rewrite !elem_of_app. right. right. by left.
  - rewrite <- app_assoc. cbn [app].
    rewrite splice_first by done.
    rewrite elem_of_app. right. by left.
Qed.

Lemma added_twice_removed_once_witness :
  snd (LineChart.addDataType 1 (LineChart.create example_page)) = Normal
  /\ (1%nat ∈ LineChart.chartMap
               (fst (LineChart.removeDataType 1
                       (fst (LineChart.addDataType 1
                               (fst (LineChart.addDataType 1
                                       (LineChart.create example_page)))))))).
Proof.
  assert (H : snd (LineChart.addDataType 1 (LineChart.create example_page))
              = Normal)
    by reflexivity.
  split; [exact H|].
  exact (proj1 (added_twice_removed_once (LineChart.create example_page)
                  1%nat (num 0) H)).
Defined.
